(** * Investment analysis engine: configuration, price range and scoring

    A shallow embedding of [src/config.py] and of the scoring half of
    [src/automation/zillow_scraper.py], with the statements the
    specification makes about them.

    Layout: [Py] holds the fragment of the Python runtime the two files
    rely on (exceptions, dynamically typed values, [int()], [str()],
    truthiness, binary64 arithmetic); [Scraper] and [Config] follow the
    source files function by function; the theorems come last. *)

From Stdlib Require Import ZArith Floats String Ascii List Lia DecimalString.
From stdpp Require Import base option list gmap strings.

Set Warnings "-inexact-float".

Local Open Scope string_scope.
Local Open Scope Z_scope.

(** ** The Python runtime fragment *)

Module Py.

(** The built-in exceptions that the modelled code can raise, and
    [InvalidConfiguration], the error class that the specification names
    for a rejected configuration. *)
Inductive exn : Set :=
| KeyError
| ValueError
| TypeError
| ZeroDivisionError
| OverflowError
| InvalidConfiguration.

(** A call either returns a value or raises. *)
Inductive outcome (A : Type) : Type :=
| Returns (a : A)
| Raises (e : exn).
Arguments Returns {A} a.
Arguments Raises {A} e.

Definition bind {A B} (o : outcome A) (k : A -> outcome B) : outcome B :=
  match o with
  | Returns a => k a
  | Raises e => Raises e
  end.

(** [try: body / except: handler], with a bare [except] that catches
    every exception. *)
Definition try_except {A} (body : outcome A) (handler : outcome A) : outcome A :=
  match body with
  | Returns a => Returns a
  | Raises _ => handler
  end.

(** Values stored in the scraped records.  A [str] is a sequence of
    code points below 256, one per [ascii]. *)
Inductive value : Set :=
| PyNone
| PyBool (b : bool)
| PyInt (z : Z)
| PyStr (s : string).

#[global] Instance value_eq_dec : EqDecision value.
Proof. solve_decision. Defined.

(** [d[k]] on a dict: [KeyError] when the key is absent. *)
Definition getitem (d : gmap string value) (k : string) : outcome value :=
  match d !! k with
  | Some v => Returns v
  | None => Raises KeyError
  end.

(** *** [int(x)] *)

(** White space as [int()] sees it: tab, line feed, vertical tab, form
    feed, carriage return and space, and above ASCII the code points
    U+0085 and U+00A0.  (U+001C..U+001F are white space for
    [str.isspace] but not here.) *)
Definition is_space (c : ascii) : bool :=
  let n := N_of_ascii c in
  ((9 <=? n) && (n <=? 13) || (n =? 32) || (n =? 133) || (n =? 160))%N.

Definition digit_value (c : ascii) : option Z :=
  let n := Z.of_N (N_of_ascii c) in
  if (48 <=? n) && (n <=? 57) then Some (n - 48) else None.

Definition is_underscore (c : ascii) : bool := (N_of_ascii c =? 95)%N.

Fixpoint skip_spaces (s : string) : string :=
  match s with
  | String c s' => if is_space c then skip_spaces s' else s
  | EmptyString => s
  end.

(** The run of digits and single underscores.  [prev_us] tells that the
    previous character was an underscore; two in a row, or one at the
    end of the run, is an error.  Returns the value read and the rest. *)
Fixpoint scan_digits (prev_us : bool) (acc : Z) (s : string) : option (Z * string) :=
  match s with
  | String c s' =>
      match digit_value c with
      | Some d => scan_digits false (10 * acc + d) s'
      | None =>
          if is_underscore c
          then (if prev_us then None else scan_digits true acc s')
          else (if prev_us then None else Some (acc, s))
      end
  | EmptyString => if prev_us then None else Some (acc, s)
  end.

(** The interpreter's limit on the number of digits in a conversion
    between [int] and [str], [sys.get_int_max_str_digits()]; 4300 unless
    the interpreter is started with another value, which the program
    never sets. *)
Definition max_str_digits : Z := 4300.

(** The digit characters of a string.  In a well-formed numeral these
    are the digits of the number, leading zeros included; the sign,
    underscores and white space do not count. *)
Fixpoint digit_count (s : string) : Z :=
  match s with
  | String c s' =>
      match digit_value c with
      | Some _ => 1 + digit_count s'
      | None => digit_count s'
      end
  | EmptyString => 0
  end.

(** Base-10 conversion of a string: leading white space, an optional
    sign, at least one digit (the first character after the sign is a
    digit), single underscores between digits, trailing white space,
    and nothing else; and no more than [max_str_digits] digits.  Every
    failure is a [ValueError]. *)
Definition int_of_string (s : string) : option Z :=
  let s1 := skip_spaces s in
  let '(negative, s2) :=
    match s1 with
    | String "+" r => (false, r)
    | String "-" r => (true, r)
    | _ => (false, s1)
    end in
  match s2 with
  | String c _ =>
      match digit_value c with
      | Some _ =>
          match scan_digits false 0 s2 with
          | Some (n, rest) =>
              match skip_spaces rest with
              | EmptyString =>
                  if digit_count s2 <=? max_str_digits
                  then Some (if negative then - n else n)
                  else None
              | String _ _ => None
              end
          | None => None
          end
      | None => None
      end
  | EmptyString => None
  end.

Definition int (v : value) : outcome Z :=
  match v with
  | PyNone => Raises TypeError
  | PyBool b => Returns (if b then 1 else 0)
  | PyInt z => Returns z
  | PyStr s =>
      match int_of_string s with
      | Some z => Returns z
      | None => Raises ValueError
      end
  end.

(** *** [str(x)], as an f-string field formats it *)

(** An integer has a decimal text when it has at most [max_str_digits]
    digits, the sign not counted. *)
Definition printable (z : Z) : bool := Z.abs z <? 10 ^ max_str_digits.

(** The decimal text of an integer, or [ValueError] when the integer
    has too many digits for the conversion. *)
Definition str_of_int (z : Z) : outcome string :=
  if printable z then Returns (NilZero.string_of_int (Z.to_int z))
  else Raises ValueError.

Definition str (v : value) : outcome string :=
  match v with
  | PyNone => Returns "None"
  | PyBool b => Returns (if b then "True" else "False")
  | PyInt z => str_of_int z
  | PyStr s => Returns s
  end.

(** *** Truthiness of [Optional] fields: [None] and zero are false

    [truthy o] is the value of the field when [if field:] takes the
    branch, and [None] when it does not. *)
Definition truthy (o : option Z) : option Z :=
  match o with
  | Some z => if z =? 0 then None else Some z
  | None => None
  end.

(** A [float] is an IEEE 754 binary64 number.  It is false when it
    compares equal to zero (either sign); NaN is true. *)
Definition float_is_zero (x : float) : bool := PrimFloat.eqb x 0%float.

(** [x or default] on an [Optional[float]]. *)
Definition or_float (o : option float) (default : float) : float :=
  match o with
  | Some x => if float_is_zero x then default else x
  | None => default
  end.

(** [x / y] on floats: [ZeroDivisionError] when the divisor is zero,
    whatever the dividend. *)
Definition truediv (x y : float) : outcome float :=
  if float_is_zero y then Raises ZeroDivisionError
  else Returns (x / y)%float.

(** [int(x)] on a float: truncation toward zero; [ValueError] on NaN,
    [OverflowError] on an infinity.  A finite non-zero [x] is
    [(-1)^s * m * 2^e]; [Z.shiftl] shifts right when [e] is negative, so
    the magnitude is the integer part of [m * 2^e]. *)
Definition int_of_float (x : float) : outcome Z :=
  match Prim2SF x with
  | S754_zero _ => Returns 0
  | S754_nan => Raises ValueError
  | S754_infinity _ => Raises OverflowError
  | S754_finite s m e =>
      let magnitude := Z.shiftl (Zpos m) e in
      Returns (if s then - magnitude else magnitude)
  end.

End Py.

Import Py.

Notation "'let!' x ':=' o 'in' k" := (Py.bind o (fun x => k))
  (at level 10, x name, o at level 100, k at level 200).

(** ** [src/automation/zillow_scraper.py]: scoring *)

Module Scraper.

(** A scraped property is a dict from field names to values.  The dicts
    are objects: [self.properties] holds references to them, and the
    store maps each reference to the dict's current content. *)
Abbreviation record := (gmap string value).
Abbreviation loc := positive.
Abbreviation store := (gmap loc (gmap string value)).

Definition CALL_TODAY : string := "CALL TODAY - Strong opportunity".
Definition CALL_THIS_WEEK : string := "CALL THIS WEEK - Good potential".
Definition RESEARCH_MORE : string := "RESEARCH MORE - Gather intel".

(** The dict literal that [calculate_opportunity_score] returns. *)
Definition analysis (score : Z) (action notes : string) : record :=
  {[ "opportunity_score" := PyInt score;
     "recommended_action" := PyStr action;
     "analysis_notes" := PyStr notes ]}.

(** The body of the [try] block: the score after the days-on-market
    tiers, or the exception raised on the way. *)
Definition dom_tiers (property_data : record) (score : Z) : outcome Z :=
  let! raw := getitem property_data "days_on_market" in
  let! dom := int raw in
  Returns (if dom >? 120 then score + 40
           else if dom >? 90 then score + 30
           else if dom >? 60 then score + 20
           else score).

Definition calculate_opportunity_score (property_data : record) : outcome record :=
  let score := 0 in
  let! score := try_except (dom_tiers property_data score) (Returns (score + 10)) in
  let action :=
    if score >=? 70 then CALL_TODAY
    else if score >=? 50 then CALL_THIS_WEEK
    else RESEARCH_MORE in
  let! raw := getitem property_data "days_on_market" in
  let! text := str raw in
  Returns (analysis score action ("DOM: " ++ text ++ " days")).

(** [prop.update(analysis)]: the keys of [analysis] are set in [prop]. *)
Definition update (prop analysis : record) : record := analysis ∪ prop.

(** The loop of [analyze_deals] over the remaining references, with the
    list built so far.  The store is threaded through and keeps the
    updates made before an exception.  [None] stands for a reference
    the store does not hold, which no Python state has. *)
Fixpoint analyze_loop (props analyzed_properties : list loc) (h : store)
  : option (store * outcome (list loc)) :=
  match props with
  | [] => Some (h, Returns analyzed_properties)
  | prop :: rest =>
      match h !! prop with
      | None => None
      | Some d =>
          match calculate_opportunity_score d with
          | Raises e => Some (h, Raises e)
          | Returns a =>
              analyze_loop rest (analyzed_properties ++ [prop])
                (<[prop := update d a]> h)
          end
      end
  end.

Definition analyze_deals (properties : list loc) (h : store)
  : option (store * outcome (list loc)) :=
  analyze_loop properties [] h.

End Scraper.

(** ** [src/config.py] *)

Module Config.

Record PropertyConfig : Set := {
  single_family : bool;
  small_multifamily : bool;
  any_age : bool;
  built_after_1980 : bool;
  built_after_1990 : bool;
  built_after_2000 : bool
}.

Record RentalStrategyConfig : Set := {
  market_rate : bool;
  section_8 : bool
}.

Record ManagementConfig : Set := {
  property_managed : bool;
  self_managed : bool;
  use_default_fee : bool;
  custom_fee : option float
}.

Definition management_fee_rate (self : ManagementConfig) : float :=
  if self_managed self then 0.0
  else if use_default_fee self then 0.10
  else (or_float (custom_fee self) 10.0 / 100.0)%float.

Record LocationConfig : Set := {
  input_method : string;
  use_county : bool;
  use_zip : bool;
  state : string;
  county : string;
  zip_code : string;
  custom_radius : option Z
}.

Definition search_radius (self : LocationConfig) : Z :=
  match truthy (custom_radius self) with
  | Some radius => radius
  | None => if use_county self then 15 else 5
  end.

Record InvestmentConfig : Set := {
  cash_purchase : bool;
  financed_purchase : bool;
  use_default_down : bool;
  custom_down : option float
}.

Definition down_payment_rate (self : InvestmentConfig) : float :=
  if cash_purchase self then 1.0
  else if use_default_down self then 0.20
  else (or_float (custom_down self) 20.0 / 100.0)%float.

Record SearchConfig : Set := {
  target_roi : float;
  max_results : Z;
  min_days_on_market : Z;
  property : PropertyConfig;
  rental_strategy : RentalStrategyConfig;
  management : ManagementConfig;
  location : LocationConfig;
  investment : InvestmentConfig;
  min_price : option Z;
  max_price : option Z
}.

(** [self.min_price = v] and [self.max_price = v]. *)
Definition set_min_price (v : Z) (self : SearchConfig) : SearchConfig :=
  {| target_roi := target_roi self;
     max_results := max_results self;
     min_days_on_market := min_days_on_market self;
     property := property self;
     rental_strategy := rental_strategy self;
     management := management self;
     location := location self;
     investment := investment self;
     min_price := Some v;
     max_price := max_price self |}.

Definition set_max_price (v : Z) (self : SearchConfig) : SearchConfig :=
  {| target_roi := target_roi self;
     max_results := max_results self;
     min_days_on_market := min_days_on_market self;
     property := property self;
     rental_strategy := rental_strategy self;
     management := management self;
     location := location self;
     investment := investment self;
     min_price := min_price self;
     max_price := Some v |}.

(** The entries of the dict that [to_zillow_params] returns. *)
Inductive param : Type :=
| PStr (s : string)
| PInt (z : Z)
| PFlags (flags : gmap string bool).

Definition to_zillow_params (self : SearchConfig) : gmap string param :=
  let params : gmap string param :=
    {[ "location_type" := PStr (if use_county (location self) then "county" else "zip");
       "county" := PStr (county (location self));
       "state" := PStr (state (location self));
       "zip_code" := PStr (zip_code (location self));
       "radius" := PInt (search_radius (location self));
       "max_results" := PInt (max_results self);
       "min_days_on_market" := PInt (min_days_on_market self);
       "property_types" :=
         PFlags {[ "single_family" := single_family (property self);
                   "multifamily" := small_multifamily (property self) ]} ]} in
  let params :=
    match truthy (min_price self) with
    | Some v => <["min_price" := PInt v]> params
    | None => params
    end in
  let params :=
    match truthy (max_price self) with
    | Some v => <["max_price" := PInt v]> params
    | None => params
    end in
  params.

(** The float that the source calls [max_price] before it is scaled and
    truncated into the two bounds. *)
Definition implied_max_price (self : SearchConfig) (avg_rent : float) : outcome float :=
  let net_rent := (avg_rent * (1 - management_fee_rate (management self)))%float in
  let monthly_noi := (net_rent * 0.5)%float in
  let annual_noi := (monthly_noi * 12)%float in
  (* the divisor 100 is not zero: this division never raises *)
  let target_roi_decimal := (target_roi self / 100)%float in
  if cash_purchase (investment self) then
    truediv annual_noi target_roi_decimal
  else
    let down_payment_rate := down_payment_rate (investment self) in
    let! quotient := truediv annual_noi target_roi_decimal in
    truediv quotient down_payment_rate.

(** [calculate_price_range] returns [None] and assigns the two fields
    of [self]: the result pairs the configuration as the call leaves it
    with the call's outcome.  [self.max_price] is assigned before the
    right-hand side of [self.min_price] is evaluated. *)
Definition calculate_price_range (self : SearchConfig) (avg_rent : float)
  : SearchConfig * outcome unit :=
  match implied_max_price self avg_rent with
  | Raises e => (self, Raises e)
  | Returns price =>
      match int_of_float (price * 0.85) with
      | Raises e => (self, Raises e)
      | Returns hi =>
          let self := set_max_price hi self in
          match int_of_float (price * 0.4) with
          | Raises e => (self, Raises e)
          | Returns lo => (set_min_price lo self, Returns tt)
          end
      end
  end.

(** Field defaults of the dataclasses, and the three presets. *)
Definition PropertyConfig_default : PropertyConfig :=
  {| single_family := true; small_multifamily := false; any_age := true;
     built_after_1980 := false; built_after_1990 := false;
     built_after_2000 := false |}.

Definition RentalStrategyConfig_default : RentalStrategyConfig :=
  {| market_rate := true; section_8 := false |}.

Definition ManagementConfig_default : ManagementConfig :=
  {| property_managed := true; self_managed := false;
     use_default_fee := true; custom_fee := None |}.

Definition LocationConfig_default : LocationConfig :=
  {| input_method := "manual"; use_county := true; use_zip := false;
     state := "NC"; county := "Wake"; zip_code := "";
     custom_radius := None |}.

Definition InvestmentConfig_default : InvestmentConfig :=
  {| cash_purchase := true; financed_purchase := false;
     use_default_down := true; custom_down := None |}.

Definition SearchConfig_default : SearchConfig :=
  {| target_roi := 10.0; max_results := 10; min_days_on_market := 30;
     property := PropertyConfig_default;
     rental_strategy := RentalStrategyConfig_default;
     management := ManagementConfig_default;
     location := LocationConfig_default;
     investment := InvestmentConfig_default;
     min_price := None; max_price := None |}.

Definition CASH_FLOW_CONFIG : SearchConfig :=
  {| target_roi := 12.0; max_results := 10; min_days_on_market := 30;
     property :=
       {| single_family := true; small_multifamily := false; any_age := true;
          built_after_1980 := true; built_after_1990 := false;
          built_after_2000 := false |};
     rental_strategy := RentalStrategyConfig_default;
     management := ManagementConfig_default;
     location := LocationConfig_default;
     investment := InvestmentConfig_default;
     min_price := None; max_price := None |}.

Definition SUBJECT_TO_CONFIG : SearchConfig :=
  {| target_roi := 15.0; max_results := 10; min_days_on_market := 90;
     property := PropertyConfig_default;
     rental_strategy := RentalStrategyConfig_default;
     management :=
       {| property_managed := true; self_managed := true;
          use_default_fee := true; custom_fee := None |};
     location := LocationConfig_default;
     investment := InvestmentConfig_default;
     min_price := None; max_price := None |}.

Definition SECTION_8_CONFIG : SearchConfig :=
  {| target_roi := 10.0; max_results := 10; min_days_on_market := 30;
     property :=
       {| single_family := true; small_multifamily := false; any_age := true;
          built_after_1980 := true; built_after_1990 := false;
          built_after_2000 := false |};
     rental_strategy := {| market_rate := false; section_8 := true |};
     management := ManagementConfig_default;
     location := LocationConfig_default;
     investment := InvestmentConfig_default;
     min_price := None; max_price := None |}.

End Config.

(** ** Sample inputs *)

Module Samples.

Import Scraper Config.

(** A record as [extract_property_data] builds it, with the given
    days-on-market field. *)
Definition listing (days_on_market : value) : gmap string value :=
  {[ "address" := PyStr "412 Oakwood Ave, Raleigh, NC 27601";
     "price" := PyStr "$189,900";
     "bedrooms" := PyStr "3";
     "bathrooms" := PyStr "2";
     "square_feet" := PyStr "1480";
     "days_on_market" := days_on_market;
     "url" := PyStr "https://www.zillow.com/homedetails/412-Oakwood-Ave";
     "scraped_date" := PyStr "2024-03-18T09:41:27.120394" ]}.

(** The same record without its days-on-market field. *)
Definition listing_without_dom : gmap string value :=
  delete "days_on_market" (listing (PyStr "Unknown")).

(** Field assignments on a configuration, as in
    [config.target_roi = 15.0]. *)
Definition with_target_roi (roi : float) (c : SearchConfig) : SearchConfig :=
  {| target_roi := roi;
     max_results := max_results c;
     min_days_on_market := min_days_on_market c;
     property := property c;
     rental_strategy := rental_strategy c;
     management := management c;
     location := location c;
     investment := investment c;
     min_price := min_price c;
     max_price := max_price c |}.

Definition with_management (m : ManagementConfig) (c : SearchConfig) : SearchConfig :=
  {| target_roi := target_roi c;
     max_results := max_results c;
     min_days_on_market := min_days_on_market c;
     property := property c;
     rental_strategy := rental_strategy c;
     management := m;
     location := location c;
     investment := investment c;
     min_price := min_price c;
     max_price := max_price c |}.

Definition with_investment (i : InvestmentConfig) (c : SearchConfig) : SearchConfig :=
  {| target_roi := target_roi c;
     max_results := max_results c;
     min_days_on_market := min_days_on_market c;
     property := property c;
     rental_strategy := rental_strategy c;
     management := management c;
     location := location c;
     investment := i;
     min_price := min_price c;
     max_price := max_price c |}.

(** [InvestmentConfig(cash_purchase=False, financed_purchase=True)]. *)
Definition financed : InvestmentConfig :=
  {| cash_purchase := false; financed_purchase := true;
     use_default_down := true; custom_down := None |}.

(** [ManagementConfig(use_default_fee=False, custom_fee=fee)]. *)
Definition custom_fee_management (fee : float) : ManagementConfig :=
  {| property_managed := true; self_managed := false;
     use_default_fee := false; custom_fee := Some fee |}.

(** A store with two scraped records, and what [analyze_deals] leaves of
    it. *)
Definition two_listings : gmap positive (gmap string value) :=
  {[ 1%positive := listing (PyStr "150");
     2%positive := listing (PyStr "Unknown") ]}.

Definition two_listings_analyzed : gmap positive (gmap string value) :=
  {[ 1%positive :=
       update (listing (PyStr "150"))
         (analysis 40 RESEARCH_MORE "DOM: 150 days");
     2%positive :=
       update (listing (PyStr "Unknown"))
         (analysis 10 RESEARCH_MORE "DOM: Unknown days") ]}.

End Samples.

(** ** Binary64 rounding, as [SpecFloat] specifies it

    Vocabulary for the facts about float arithmetic that the price bounds
    rest on. *)

Module Binary64.

(** The two shifts of [binary_round_aux]: [n] brings the mantissa to the
    format's exponent, [n2] absorbs a carry of the rounding. *)
Definition shift1 (D ex : Z) : Z := Z.max 0 (Z.max (D + ex - 53) (-1074) - ex).

(** What [binary_round_aux] returns for a mantissa and an exponent. *)
Definition rounded (s : bool) (m e : Z) : spec_float :=
  match m with
  | 0 => S754_zero s
  | Zpos p => if e <=? emax - prec then S754_finite s p e else S754_infinity s
  | Zneg _ => S754_nan
  end.

(** Zero of either sign, NaN, or a number with a clear sign bit. *)
Definition not_negative (x : spec_float) : Prop :=
  match x with
  | S754_zero _ | S754_nan => True
  | S754_infinity s | S754_finite s _ _ => s = false
  end.

(** Neither an infinity nor NaN. *)
Definition finite_or_zero (x : spec_float) : Prop :=
  match x with
  | S754_zero _ | S754_finite _ _ _ => True
  | S754_infinity _ | S754_nan => False
  end.

End Binary64.

(** ** The price-range algorithm in the words of the specification

    Section 4.2 of the specification gives [calculate_price_range] as
    seven steps, on floats, with the two bounds taken by [floor].  These
    are the steps as written there, to be compared with
    [Config.calculate_price_range]. *)

Module PriceRangeCalculator.

Import Config.

(** [floor(x)]: the largest integer that is not above [x]; undefined on
    NaN and the infinities.  A finite non-zero [x] is [(-1)^s * m * 2^e],
    and [Z.shiftl] with a negative [e] shifts right, which rounds down
    also on a negative number. *)
Definition floor (x : float) : outcome Z :=
  match Prim2SF x with
  | S754_zero _ => Returns 0
  | S754_nan => Raises ValueError
  | S754_infinity _ => Raises OverflowError
  | S754_finite s m e => Returns (Z.shiftl (if s then Zneg m else Zpos m) e)
  end.

(** Steps 1 to 7.  A target ROI fraction of zero is the invalid input of
    the edge cases; the result is the pair of [min_price] and
    [max_price]. *)
Definition calculate_price_range (config : SearchConfig) (avg_monthly_rent : float)
  : outcome (Z * Z) :=
  let net_monthly_rent :=
    (avg_monthly_rent * (1 - management_fee_rate (management config)))%float in
  let monthly_net_operating_income := (net_monthly_rent * 0.5)%float in
  let annual_net_operating_income := (monthly_net_operating_income * 12)%float in
  let target_roi_fraction := (target_roi config / 100)%float in
  if float_is_zero target_roi_fraction then Raises InvalidConfiguration
  else
    let! implied_max_price :=
      if cash_purchase (investment config)
      then Returns (annual_net_operating_income / target_roi_fraction)%float
      else truediv (annual_net_operating_income / target_roi_fraction)%float
             (down_payment_rate (investment config)) in
    let! max_price := floor (implied_max_price * 0.85) in
    let! min_price := floor (implied_max_price * 0.4) in
    Returns (min_price, max_price).

End PriceRangeCalculator.

(** ** Short records and stores *)

Module Cases.

Import Scraper.

(** Records cut down to two fields, and small stores of them; the second
    record of [broken_store] has no days-on-market field. *)
Definition short_listing (days_on_market : value) : gmap string value :=
  {[ "price" := PyStr "$189,900"; "days_on_market" := days_on_market ]}.

Definition short_store : gmap positive (gmap string value) :=
  {[ 1%positive := short_listing (PyStr "150");
     2%positive := short_listing (PyStr "Unknown") ]}.

Definition short_store_analyzed : gmap positive (gmap string value) :=
  {[ 1%positive :=
       update (short_listing (PyStr "150"))
         (analysis 40 RESEARCH_MORE "DOM: 150 days");
     2%positive :=
       update (short_listing (PyStr "Unknown"))
         (analysis 10 RESEARCH_MORE "DOM: Unknown days") ]}.

Definition broken_store : gmap positive (gmap string value) :=
  {[ 1%positive := short_listing (PyStr "150");
     2%positive := {[ "price" := PyStr "$95,000" ]};
     3%positive := short_listing (PyStr "95") ]}.

Definition broken_store_after : gmap positive (gmap string value) :=
  {[ 1%positive :=
       update (short_listing (PyStr "150"))
         (analysis 40 RESEARCH_MORE "DOM: 150 days");
     2%positive := {[ "price" := PyStr "$95,000" ]};
     3%positive := short_listing (PyStr "95") ]}.

End Cases.

(** ** Characters of a numeral *)

Module PyText.

(** The characters that [int()] accepts somewhere in a base-10 numeral. *)
Definition numeral_char (c : ascii) : bool :=
  is_space c || is_underscore c
  || match digit_value c with Some _ => true | None => false end
  || (N_of_ascii c =? 43)%N || (N_of_ascii c =? 45)%N.

Fixpoint all_chars (p : ascii -> bool) (s : string) : bool :=
  match s with
  | EmptyString => true
  | String c s' => p c && all_chars p s'
  end.

End PyText.

(** ** [src/automation/zillow_scraper.py]: search and extraction *)

Module Listings.

Import Scraper Config.

(** *** String methods *)

(** White space as [str.split()] sees it, for code points below 256. *)
Definition is_whitespace (c : ascii) : bool :=
  let n := N_of_ascii c in
  ((9 <=? n) && (n <=? 13) || (28 <=? n) && (n <=? 32)
   || (n =? 133) || (n =? 160))%N.

(** [s.split()]: the maximal runs of characters that are not white
    space. *)
Fixpoint split (s : string) : list string :=
  match s with
  | EmptyString => []
  | String c s' =>
      if is_whitespace c then split s'
      else
        match s' with
        | EmptyString => [String c EmptyString]
        | String c' _ =>
            if is_whitespace c' then String c EmptyString :: split s'
            else
              match split s' with
              | token :: tokens => String c token :: tokens
              | [] => [String c EmptyString]
              end
        end
  end.

(** [s.replace(old, new)] scans from the left and replaces the
    occurrences of [old] that do not overlap.  [skip] counts the
    characters of an occurrence still to be passed over.  (An empty [old]
    would put [new] around every character; the scraper never passes
    one.) *)
Fixpoint replace_from (old new : string) (skip : nat) (s : string) : string :=
  match s with
  | EmptyString => EmptyString
  | String c s' =>
      match skip with
      | S k => replace_from old new k s'
      | O =>
          if String.prefix old s
          then new ++ replace_from old new (String.length old - 1) s'
          else String c (replace_from old new 0 s')
      end
  end.

Definition replace (old new s : string) : string := replace_from old new 0 s.

(** *** The configuration dict and the search URL *)

(** [config[k]]. *)
Definition config_item (config : gmap string param) (k : string) : outcome param :=
  match config !! k with
  | Some v => Returns v
  | None => Raises KeyError
  end.

(** [v == 'county']: only a string can be equal to a string. *)
Definition is_text (v : param) (s : string) : bool :=
  match v with
  | PStr s' => String.eqb s' s
  | PInt _ | PFlags _ => false
  end.

(** [v[k]] on an entry of the configuration: strings and integers do not
    take a string subscript. *)
Definition subscript (v : param) (k : string) : outcome bool :=
  match v with
  | PFlags flags =>
      match flags !! k with
      | Some b => Returns b
      | None => Raises KeyError
      end
  | PStr _ | PInt _ => Raises TypeError
  end.

Section URL.

(** The text that an f-string gives a dict-valued entry is Python's
    [repr] of the dict, which follows the insertion order of its keys; the
    order is not part of [gmap], so the text is a parameter here. *)
Variable dict_repr : gmap string bool -> string.

(** The entries that an f-string can format: all but the integers of
    more than [max_str_digits] digits. *)
Definition formattable (v : param) : bool :=
  match v with
  | PInt z => printable z
  | PStr _ | PFlags _ => true
  end.

(** What an f-string field gives an entry; an integer with too many
    digits raises [ValueError], as in [str]. *)
Definition format (v : param) : outcome string :=
  match v with
  | PStr s => Returns s
  | PInt z => str_of_int z
  | PFlags flags => Returns (dict_repr flags)
  end.

(** [build_search_url].  The [filters] dict is built and never used; of
    its construction only the lookups that can raise are kept, in the
    order of the source ([config.get] with a default cannot raise).  An
    f-string formats each field as soon as its expression is evaluated:
    the county is formatted before the state is looked up. *)
Definition build_search_url (config : gmap string param) : outcome string :=
  let base_url := "https://www.zillow.com/homes/for_sale/" in
  let! location_type := config_item config "location_type" in
  let! location :=
    if is_text location_type "county" then
      let! county := config_item config "county" in
      let! county_text := format county in
      let! state := config_item config "state" in
      let! state_text := format state in
      Returns (PStr (county_text ++ "-" ++ state_text))
    else config_item config "zip_code" in
  let price_min := default (PInt 50000) (config !! "min_price") in
  let price_max := default (PInt 300000) (config !! "max_price") in
  let! property_types := config_item config "property_types" in
  let! single_family := subscript property_types "single_family" in
  let! location_text := format location in
  Returns (base_url ++ location_text ++ "/").

End URL.

(** *** Property cards *)

(** What the queries of [extract_property_data] find on one rendered
    card: the text of the address and price elements ([None] when
    [find_element] finds nothing and raises), the texts of the detail
    spans, the texts of the elements that mention days on Zillow, the
    [href] of the first link ([None] when there is no link, [Some None]
    when the link has no such attribute), and the reading of the clock
    when the card is processed. *)
Record card : Set := {
  addr_text : option string;
  price_text : option string;
  details : list string;
  dom_element : list string;
  link_href : option (option string);
  now_isoformat : string
}.

(** [extract_property_data]: the record built from a card, or [None] when
    any step raises, which the [except Exception] clause turns into a
    returned [None]. *)
Definition extract_property_data (c : card) : option (gmap string value) :=
  address ← addr_text c;
  price ← price_text c;
  let '(beds, baths, sqft) :=
    match details c with
    | d0 :: d1 :: d2 :: _ =>
        (replace " bd" "" d0, replace " ba" "" d1,
         replace "," "" (replace " sqft" "" d2))
    | _ => ("N/A", "N/A", "N/A")
    end in
  days_on_market ←
    match dom_element c with
    | text :: _ => head (split text)
    | [] => Some "Unknown"
    end;
  property_url ← link_href c;
  Some ({[ "address" := PyStr address;
           "price" := PyStr price;
           "bedrooms" := PyStr beds;
           "bathrooms" := PyStr baths;
           "square_feet" := PyStr sqft;
           "days_on_market" := PyStr days_on_market;
           "url" := from_option PyStr PyNone property_url;
           "scraped_date" := PyStr (now_isoformat c) ]} : gmap string value).

(** *** The scraper object *)

(** [self.properties] is a list of references into the store of record
    objects. *)
Record scraper : Type := {
  properties : list positive;
  objects : gmap positive (gmap string value)
}.

(** [xs[:n]]: a negative [n] counts from the end. *)
Definition slice_to {A} (xs : list A) (n : Z) : list A :=
  if n <? 0 then take (Z.to_nat (Z.of_nat (length xs) + n)) xs
  else take (Z.to_nat n) xs.

(** [self.properties.append(d)] for a newly built dict [d]: the object
    gets a reference that the store does not use yet. *)
Definition append_new (d : gmap string value) (self : scraper) : scraper :=
  let l := fresh (dom (objects self)) in
  {| properties := properties self ++ [l];
     objects := <[l := d]> (objects self) |}.

(** The loop of [search_properties] over the cards: a card is kept when
    its extraction gives a dict that is true, that is, not empty. *)
Fixpoint collect (cards : list card) (self : scraper) : scraper :=
  match cards with
  | [] => self
  | c :: rest =>
      match extract_property_data c with
      | Some property_data =>
          if bool_decide (property_data = ∅) then collect rest self
          else collect rest (append_new property_data self)
      | None => collect rest self
      end
  end.

(** [search_properties].  [page] is what the driver finds once the URL is
    loaded: [None] when waiting for the first card raises (the bare
    [except] then returns a new empty list), else the cards in document
    order. *)
Definition search_properties (dict_repr : gmap string bool -> string)
    (config : gmap string param) (page : option (list card)) (self : scraper)
  : scraper * outcome (list positive) :=
  match build_search_url dict_repr config with
  | Raises e => (self, Raises e)
  | Returns search_url =>
      match page with
      | None => (self, Returns [])
      | Some property_cards =>
          match default (PInt 10) (config !! "max_results") with
          | PInt max_results =>
              let self := collect (slice_to property_cards max_results) self in
              (self, Returns (properties self))
          | PStr _ | PFlags _ => (self, Raises TypeError)
          end
      end
  end.

(** [ZillowWholesaleScraper(config)]: no properties yet. *)
Definition new_scraper : scraper := {| properties := []; objects := ∅ |}.

End Listings.

(** ** Sample searches *)

Module Pages.

Import Scraper Config Listings.

(** The configuration of the script's example run. *)
Definition main_config : gmap string param :=
  {[ "location_type" := PStr "county";
     "county" := PStr "Wake";
     "state" := PStr "NC";
     "property_types" := PFlags {[ "single_family" := true ]};
     "max_results" := PInt 10;
     "min_price" := PInt 100000;
     "max_price" := PInt 250000 ]}.

(** A card with everything on it, one without the days-on-market text
    and with two detail spans only, and one without a link. *)
Definition full_card : card :=
  {| addr_text := Some "412 Oakwood Ave, Raleigh, NC 27601";
     price_text := Some "$189,900";
     details := ["3 bd"; "2 ba"; "1,480 sqft"];
     dom_element := ["150 days on Zillow"];
     link_href := Some (Some "https://www.zillow.com/homedetails/412-Oakwood-Ave");
     now_isoformat := "2024-03-18T09:41:27.120394" |}.

Definition bare_card : card :=
  {| addr_text := Some "77 Pine St, Cary, NC 27511";
     price_text := Some "$95,000";
     details := ["2 bd"; "1 ba"];
     dom_element := [];
     link_href := Some None;
     now_isoformat := "2024-03-18T09:41:27.734411" |}.

Definition unlinked_card : card :=
  {| addr_text := Some "9 Elm Ct, Apex, NC 27502";
     price_text := Some "$120,000";
     details := [];
     dom_element := ["95 days on Zillow"];
     link_href := None;
     now_isoformat := "2024-03-18T09:41:28.003915" |}.

(** A scraper that already holds one record from an earlier search, and
    a page of three cards. *)
Definition earlier_scraper : scraper :=
  {| properties := [1%positive];
     objects := {[ 1%positive :=
                     {[ "address" := PyStr "15 Birch Ln, Garner, NC 27529";
                        "days_on_market" := PyStr "95" ]} ]} |}.

Definition page_of_three : list card := [full_card; bare_card; unlinked_card].

Definition plain_repr (flags : gmap string bool) : string := "{...}".

End Pages.

(** ** Scoring: [calculate_opportunity_score] *)

Import Scraper Samples.

Section Scoring.

Implicit Types (d : gmap string value) (v : value).

(** A record without the field makes the call raise: the [try] block
    absorbs the first failed lookup, the f-string looks the key up again. *)
Lemma score_absent d :
  d !! "days_on_market" = None ->
  calculate_opportunity_score d = Raises KeyError.
Proof.
  intros Hd. unfold calculate_opportunity_score, dom_tiers, getitem.
  rewrite Hd. reflexivity.
Qed.

(** The values that an f-string cannot format are the integers of more
    than [max_str_digits] digits. *)
Lemma str_cases v :
  (exists text, str v = Returns text
                /\ forall z, v = PyInt z -> Z.abs z < 10 ^ max_str_digits)
  \/ (exists z, v = PyInt z /\ 10 ^ max_str_digits <= Z.abs z
                /\ str v = Raises ValueError).
Proof.
  destruct v as [| b | z | s]; cbn [str];
    try (left; eexists; split; [reflexivity | discriminate]).
  unfold str_of_int, printable.
  destruct (Z.ltb_spec (Z.abs z) (10 ^ max_str_digits)) as [Hlt | Hge].
  - left. eexists. split; [reflexivity |]. intros z' [= <-]. exact Hlt.
  - right. exists z. split; [reflexivity | split; [exact Hge | reflexivity]].
Qed.

(** A record with the field gets past the scoring, whatever the field
    holds: the score is the tier of the parsed value, or 10 when [int]
    raises, and the action is always the lowest one.  What is left is
    the formatting of the field for the notes. *)
Lemma score_present d v :
  d !! "days_on_market" = Some v ->
  exists score,
    calculate_opportunity_score d
      = (let! text := str v in
         Returns (analysis score RESEARCH_MORE ("DOM: " ++ text ++ " days")))
    /\ score ∈ [0; 10; 20; 30; 40]
    /\ match int v with
       | Returns dom =>
           score = (if dom >? 120 then 40 else if dom >? 90 then 30
                    else if dom >? 60 then 20 else 0)
       | Raises _ => score = 10
       end.
Proof.
  intros Hd. unfold calculate_opportunity_score, dom_tiers, getitem.
  rewrite Hd. cbn [bind]. destruct (int v) as [dom | e]; cbn [bind try_except].
  - destruct (dom >? 120); [| destruct (dom >? 90); [| destruct (dom >? 60)]];
      eexists; (split; [reflexivity | split; [set_solver | reflexivity]]).
  - eexists; split; [reflexivity | split; [set_solver | reflexivity]].
Qed.

(** The same for a field that can be formatted. *)
Lemma score_present_text d v text :
  d !! "days_on_market" = Some v -> str v = Returns text ->
  exists score,
    calculate_opportunity_score d
      = Returns (analysis score RESEARCH_MORE ("DOM: " ++ text ++ " days"))
    /\ score ∈ [0; 10; 20; 30; 40]
    /\ match int v with
       | Returns dom =>
           score = (if dom >? 120 then 40 else if dom >? 90 then 30
                    else if dom >? 60 then 20 else 0)
       | Raises _ => score = 10
       end.
Proof.
  intros Hd Htext. destruct (score_present d v Hd) as (score & Hrun & Hrest).
  rewrite Htext in Hrun. exists score. split; [exact Hrun | exact Hrest].
Qed.

(** A call that returns has found the field and formatted it. *)
Lemma score_returns d a :
  calculate_opportunity_score d = Returns a ->
  exists v text score,
    d !! "days_on_market" = Some v /\ str v = Returns text
    /\ a = analysis score RESEARCH_MORE ("DOM: " ++ text ++ " days")
    /\ score ∈ [0; 10; 20; 30; 40].
Proof.
  intros Ha. destruct (d !! "days_on_market") as [v |] eqn:Hd.
  - destruct (score_present d v Hd) as (score & Hrun & Hin & _).
    rewrite Hrun in Ha.
    destruct (str v) as [text | e] eqn:Htext; [| discriminate Ha].
    injection Ha as <-. exists v, text, score.
    split; [reflexivity | split; [exact Htext | split; [reflexivity | exact Hin]]].
  - rewrite (score_absent d Hd) in Ha. discriminate Ha.
Qed.

(** Reads a record that carries the field, once the field's lookup is in
    the context or is the lookup of an insertion. *)
Ltac score_by_evaluation :=
  unfold calculate_opportunity_score, dom_tiers, getitem;
  rewrite ?lookup_insert_eq; reflexivity.

(** C1, as the specification states it, fails: a record whose
    days-on-market field is "150" scores 40, which is below both call
    thresholds, so its action is not "CALL TODAY - Strong opportunity". *)
Lemma score_150_is_not_call_today :
  ~ (exists r,
        calculate_opportunity_score (listing (PyStr "150")) = Returns r
        /\ r !! "opportunity_score" = Some (PyInt 40)
        /\ r !! "recommended_action" = Some (PyStr CALL_TODAY)).
Proof.
  intros (r & Hr & _ & Hact).
  assert (Hrun : calculate_opportunity_score (listing (PyStr "150"))
                 = Returns (analysis 40 RESEARCH_MORE "DOM: 150 days"))
    by (vm_compute; reflexivity).
  rewrite Hrun in Hr. injection Hr as <-.
  vm_compute in Hact. discriminate Hact.
Qed.

(** C1 (amended): every record whose days-on-market field is "150" gets
    score 40, "95" gets 30, "45" gets 0 and "Unknown" gets 10; in all four
    cases the recommended action is "RESEARCH MORE - Gather intel", and
    the notes quote the raw field. *)
Theorem score_examples d :
  calculate_opportunity_score (<["days_on_market" := PyStr "150"]> d)
    = Returns (analysis 40 RESEARCH_MORE "DOM: 150 days")
  /\ calculate_opportunity_score (<["days_on_market" := PyStr "95"]> d)
    = Returns (analysis 30 RESEARCH_MORE "DOM: 95 days")
  /\ calculate_opportunity_score (<["days_on_market" := PyStr "45"]> d)
    = Returns (analysis 0 RESEARCH_MORE "DOM: 45 days")
  /\ calculate_opportunity_score (<["days_on_market" := PyStr "Unknown"]> d)
    = Returns (analysis 10 RESEARCH_MORE "DOM: Unknown days").
Proof. repeat split; score_by_evaluation. Qed.

(** C2: whatever the record, a result of [calculate_opportunity_score]
    has its score among 0, 10, 20, 30 and 40 and its action equal to
    "RESEARCH MORE - Gather intel"; neither call action is ever produced,
    the largest score (40) being below the lower threshold (50). *)
Theorem score_range_and_action d r :
  calculate_opportunity_score d = Returns r ->
  (exists score,
      r !! "opportunity_score" = Some (PyInt score)
      /\ score ∈ [0; 10; 20; 30; 40] /\ score < 50)
  /\ r !! "recommended_action" = Some (PyStr RESEARCH_MORE)
  /\ r !! "recommended_action" <> Some (PyStr CALL_TODAY)
  /\ r !! "recommended_action" <> Some (PyStr CALL_THIS_WEEK).
Proof.
  intros Hr.
  destruct (score_returns d r Hr) as (v & text & score & _ & _ & -> & Hin).
  assert (Hact : analysis score RESEARCH_MORE ("DOM: " ++ text ++ " days")
                   !! "recommended_action" = Some (PyStr RESEARCH_MORE))
    by reflexivity.
  split; [| rewrite Hact; repeat split; discriminate].
  exists score. split; [reflexivity | split; [assumption |]].
  set_unfold in Hin. lia.
Qed.

Lemma score_range_and_action_witness :
  calculate_opportunity_score (listing (PyStr "150"))
    = Returns (analysis 40 RESEARCH_MORE "DOM: 150 days")
  /\ analysis 40 RESEARCH_MORE "DOM: 150 days" !! "recommended_action"
     = Some (PyStr RESEARCH_MORE).
Proof.
  assert (Hrun : calculate_opportunity_score (listing (PyStr "150"))
                 = Returns (analysis 40 RESEARCH_MORE "DOM: 150 days"))
    by (vm_compute; reflexivity).
  split; [exact Hrun |].
  exact (proj1 (proj2 (score_range_and_action _ _ Hrun))).
Defined.

(** C6, as the specification states it, fails on a record that has no
    days-on-market field: [KeyError] escapes the call. *)
Lemma score_without_dom_raises :
  listing_without_dom !! "days_on_market" = None
  /\ calculate_opportunity_score listing_without_dom = Raises KeyError
  /\ ~ (exists r, calculate_opportunity_score listing_without_dom = Returns r).
Proof.
  assert (Hrun : calculate_opportunity_score listing_without_dom = Raises KeyError)
    by (vm_compute; reflexivity).
  split; [vm_compute; reflexivity | split; [exact Hrun |]].
  intros [r Hr]. rewrite Hrun in Hr. discriminate Hr.
Qed.

(** C6 (amended): take a record that carries a days-on-market field.
    When the field is [None], a bool, a string, or an integer of at most
    [max_str_digits] (4300) digits, [calculate_opportunity_score] returns
    a result, and when [int] raises on the field the score is exactly 10
    and the notes quote the field.  When the field is an integer of more
    digits, the parse succeeds but the f-string of the notes cannot
    format it: [ValueError] escapes the call. *)
Theorem score_total_on_present d v :
  d !! "days_on_market" = Some v ->
  ((forall z, v = PyInt z -> Z.abs z < 10 ^ max_str_digits) ->
   exists text,
     str v = Returns text
     /\ (exists r, calculate_opportunity_score d = Returns r)
     /\ (forall e,
           int v = Raises e ->
           calculate_opportunity_score d
             = Returns (analysis 10 RESEARCH_MORE ("DOM: " ++ text ++ " days"))))
  /\ (forall z,
        v = PyInt z -> 10 ^ max_str_digits <= Z.abs z ->
        calculate_opportunity_score d = Raises ValueError).
Proof.
  intros Hd. destruct (score_present d v Hd) as (score & Hrun & _ & Hscore).
  destruct (str_cases v) as [(text & Htext & Hsmall) | (z & -> & Hbig & Htext)];
    rewrite Htext in Hrun; cbn [bind] in Hrun.
  - split.
    + intros _. exists text. split; [exact Htext | split; [eauto |]].
      intros e He. rewrite He in Hscore. subst score. exact Hrun.
    + intros z Hz Hbig. specialize (Hsmall z Hz). lia.
  - split.
    + intros Hsmall. specialize (Hsmall z eq_refl). lia.
    + intros z' _ _. exact Hrun.
Qed.

Lemma score_total_on_present_witness :
  listing (PyStr "Unknown") !! "days_on_market" = Some (PyStr "Unknown")
  /\ int (PyStr "Unknown") = Raises ValueError
  /\ calculate_opportunity_score (listing (PyStr "Unknown"))
     = Returns (analysis 10 RESEARCH_MORE "DOM: Unknown days")
  /\ calculate_opportunity_score (listing (PyInt (10 ^ max_str_digits)))
     = Raises ValueError.
Proof.
  assert (Hd : forall v, listing v !! "days_on_market" = Some v)
    by (intros v; reflexivity).
  split; [apply Hd | split; [reflexivity | split]].
  - destruct (proj1 (score_total_on_present _ _ (Hd (PyStr "Unknown"))))
      as (text & Htext & _ & Hten); [discriminate |].
    injection Htext as <-.
    exact (Hten ValueError eq_refl).
  - apply (proj2 (score_total_on_present _ _ (Hd (PyInt (10 ^ max_str_digits))))
             (10 ^ max_str_digits) eq_refl).
    rewrite Z.abs_eq; [apply Z.le_refl | apply Z.pow_nonneg; lia].
Defined.

End Scoring.

(** ** Batch scoring: [analyze_deals] *)

Section Batch.

Local Open Scope list_scope.

Implicit Types (d a : gmap string value) (h : gmap positive (gmap string value)).
Implicit Types (l : positive) (props : list positive).

(** The score reads nothing but the days-on-market field. *)
Lemma score_reads_dom_only d d' :
  d !! "days_on_market" = d' !! "days_on_market" ->
  calculate_opportunity_score d = calculate_opportunity_score d'.
Proof.
  intros Heq. unfold calculate_opportunity_score, dom_tiers, getitem.
  rewrite Heq. reflexivity.
Qed.

Lemma analysis_has_no_dom score action notes :
  analysis score action notes !! "days_on_market" = None.
Proof.
  unfold analysis.
  rewrite !lookup_insert_ne by discriminate.
  apply lookup_singleton_ne. discriminate.
Qed.

(** Scoring a record that was already enriched gives the same analysis,
    and writing it again changes nothing. *)
Lemma score_after_update d a :
  calculate_opportunity_score d = Returns a ->
  calculate_opportunity_score (update d a) = Returns a
  /\ update (update d a) a = update d a.
Proof.
  intros Ha. split.
  - rewrite <- Ha. apply score_reads_dom_only. unfold update.
    destruct (score_returns d a Ha) as (v & text & score & Hd & _ & -> & _).
    rewrite lookup_union_r by apply analysis_has_no_dom. reflexivity.
  - unfold update. rewrite (assoc_L (∪)). f_equal. apply (idemp_L (∪)).
Qed.

(** What a run of the loop that returns has done: the output extends the
    accumulator by the references in their order, each listed record now
    holds its own analysis, and the other records are untouched. *)
Lemma analyze_loop_returns props : forall acc h h' out,
  analyze_loop props acc h = Some (h', Returns out) ->
  out = acc ++ props
  /\ (forall l, l ∈ props ->
        exists d a, h !! l = Some d
                    /\ calculate_opportunity_score d = Returns a
                    /\ h' !! l = Some (update d a))
  /\ (forall l, l ∉ props -> h' !! l = h !! l).
Proof.
  induction props as [| p rest IH]; intros acc h h' out Hrun; cbn in Hrun.
  - injection Hrun as <- <-. rewrite app_nil_r.
    split; [reflexivity | split; [| reflexivity]].
    intros l Hl. inversion Hl.
  - destruct (h !! p) as [d |] eqn:Hp; [| discriminate Hrun].
    destruct (calculate_opportunity_score d) as [a | e] eqn:Ha;
      [| discriminate Hrun].
    destruct (IH _ _ _ _ Hrun) as (Hout & Hin & Hnotin).
    destruct (score_after_update d a Ha) as [Ha' Hidem].
    split; [rewrite Hout, <- app_assoc; reflexivity | split].
    + intros l Hl. destruct (decide (l ∈ rest)) as [Hrest | Hrest].
      * destruct (Hin l Hrest) as (d0 & a0 & Hd0 & Ha0 & Hfin).
        destruct (decide (l = p)) as [-> | Hne].
        -- rewrite lookup_insert_eq in Hd0. injection Hd0 as <-.
           rewrite Ha' in Ha0. injection Ha0 as <-.
           rewrite Hidem in Hfin. eauto.
        -- rewrite lookup_insert_ne in Hd0 by congruence. eauto.
      * assert (l = p) as -> by (apply elem_of_cons in Hl; tauto).
        exists d, a. rewrite (Hnotin p Hrest), lookup_insert_eq. eauto.
    + intros l Hl. apply not_elem_of_cons in Hl as [Hne Hrest].
      rewrite (Hnotin l Hrest). apply lookup_insert_ne. congruence.
Qed.

(** The loop returns as soon as every listed reference holds a record that
    can be scored. *)
Lemma analyze_loop_total props : forall acc h,
  (forall l, l ∈ props ->
     exists d a, h !! l = Some d /\ calculate_opportunity_score d = Returns a) ->
  exists h', analyze_loop props acc h = Some (h', Returns (acc ++ props)).
Proof.
  induction props as [| p rest IH]; intros acc h Hok; cbn.
  - rewrite app_nil_r. eauto.
  - destruct (Hok p) as (d & a & Hp & Ha); [left |].
    rewrite Hp, Ha.
    destruct (IH (acc ++ [p]) (<[p := update d a]> h)) as [h' Hrun].
    + intros l Hl. destruct (decide (l = p)) as [-> | Hne].
      * rewrite lookup_insert_eq. exists (update d a), a.
        split; [reflexivity | apply score_after_update, Ha].
      * rewrite lookup_insert_ne by congruence. apply Hok. right. exact Hl.
    + exists h'. rewrite Hrun, <- app_assoc. reflexivity.
Qed.

(** C8 (amended): batch scoring does not depend on the order of a batch
    on which it returns.  When [analyze_deals] returns on a batch, that
    is, when every record of the batch can be scored, the output lists
    the batch's records in the batch's order; on every permutation of the
    batch it returns too, lists the records in the permuted order, and
    leaves every record with the same content; and each record of the
    batch ends up with the analysis computed from that record alone. *)
Theorem analyze_deals_order_independent h h1 props props' out :
  props ≡ₚ props' ->
  analyze_deals props h = Some (h1, Returns out) ->
  out = props
  /\ analyze_deals props' h = Some (h1, Returns props')
  /\ (forall l d,
        l ∈ props -> h !! l = Some d ->
        exists a, calculate_opportunity_score d = Returns a
                  /\ h1 !! l = Some (update d a)).
Proof.
  unfold analyze_deals. intros Hperm Hrun.
  destruct (analyze_loop_returns _ _ _ _ _ Hrun) as (Hout & Hin & Hnotin).
  assert (Hone : forall l d, l ∈ props -> h !! l = Some d ->
            exists a, calculate_opportunity_score d = Returns a
                      /\ h1 !! l = Some (update d a)).
  { intros l d Hl Hd. destruct (Hin l Hl) as (d0 & a & Hd0 & Ha & Hfin).
    rewrite Hd in Hd0. injection Hd0 as <-. eauto. }
  split; [exact Hout | split; [| exact Hone]].
  destruct (analyze_loop_total props' [] h) as [h2 Hrun'].
  { intros l Hl. rewrite <- Hperm in Hl.
    destruct (Hin l Hl) as (d & a & Hd & Ha & _). eauto. }
  rewrite Hrun'. cbn [app]. do 2 f_equal.
  destruct (analyze_loop_returns _ _ _ _ _ Hrun') as (_ & Hin' & Hnotin').
  apply map_eq. intros l. destruct (decide (l ∈ props)) as [Hl | Hl].
  - destruct (Hin l Hl) as (d & a & Hd & Ha & Hfin).
    assert (Hl' : l ∈ props') by (rewrite <- Hperm; exact Hl).
    destruct (Hin' l Hl') as (d' & a' & Hd' & Ha' & Hfin').
    rewrite Hd in Hd'. injection Hd' as <-.
    rewrite Ha in Ha'. injection Ha' as <-.
    rewrite Hfin, Hfin'. reflexivity.
  - rewrite (Hnotin l Hl). apply Hnotin'. rewrite <- Hperm. exact Hl.
Qed.

Lemma analyze_deals_order_independent_witness :
  [1; 2]%positive ≡ₚ [2; 1]%positive
  /\ analyze_deals [1; 2]%positive two_listings
     = Some (two_listings_analyzed, Returns [1; 2]%positive)
  /\ analyze_deals [2; 1]%positive two_listings
     = Some (two_listings_analyzed, Returns [2; 1]%positive).
Proof.
  assert (Hperm : [1; 2]%positive ≡ₚ [2; 1]%positive) by apply perm_swap.
  assert (Hrun : analyze_deals [1; 2]%positive two_listings
                 = Some (two_listings_analyzed, Returns [1; 2]%positive))
    by (vm_compute; reflexivity).
  split; [exact Hperm | split; [exact Hrun |]].
  exact (proj1 (proj2 (analyze_deals_order_independent _ _ _ _ _ Hperm Hrun))).
Defined.

End Batch.

(** C8, as the specification states it, fails on a batch with a record
    that cannot be scored.  In [Cases.broken_store] record 2 has no
    days-on-market field.  In the order 1, 2, 3 record 1 is scored and
    updated before [KeyError] stops the run; in the order 2, 1, 3 the
    run stops at once and record 1 is left without a score.  Neither run
    returns a list. *)
Lemma analyze_deals_order_decides_what_is_scored :
  [1; 2; 3]%positive ≡ₚ [2; 1; 3]%positive
  /\ analyze_deals [1; 2; 3]%positive Cases.broken_store
     = Some (Cases.broken_store_after, Raises KeyError)
  /\ analyze_deals [2; 1; 3]%positive Cases.broken_store
     = Some (Cases.broken_store, Raises KeyError)
  /\ (Cases.broken_store_after !! 1%positive)
       ≫= (fun d => d !! "opportunity_score") = Some (PyInt 40)
  /\ (Cases.broken_store !! 1%positive)
       ≫= (fun d => d !! "opportunity_score") = None
  /\ ~ (forall h props props' o o' h1 h1',
          props ≡ₚ props' ->
          analyze_deals props h = Some (h1, o) ->
          analyze_deals props' h = Some (h1', o') ->
          h1 = h1').
Proof.
  assert (Hperm : [1; 2; 3]%positive ≡ₚ [2; 1; 3]%positive) by apply perm_swap.
  assert (Hrun : analyze_deals [1; 2; 3]%positive Cases.broken_store
                 = Some (Cases.broken_store_after, Raises KeyError))
    by (vm_compute; reflexivity).
  assert (Hrun' : analyze_deals [2; 1; 3]%positive Cases.broken_store
                  = Some (Cases.broken_store, Raises KeyError))
    by (vm_compute; reflexivity).
  assert (Hscored : (Cases.broken_store_after !! 1%positive)
                      ≫= (fun d => d !! "opportunity_score") = Some (PyInt 40))
    by (vm_compute; reflexivity).
  assert (Hnot : (Cases.broken_store !! 1%positive)
                   ≫= (fun d => d !! "opportunity_score") = None)
    by (vm_compute; reflexivity).
  split; [exact Hperm | split; [exact Hrun | split; [exact Hrun' |]]].
  split; [exact Hscored | split; [exact Hnot |]].
  intros Hall.
  pose proof (Hall _ _ _ _ _ _ _ Hperm Hrun Hrun') as Heq.
  rewrite Heq in Hscored. rewrite Hscored in Hnot. discriminate Hnot.
Qed.

(** ** Configuration: fee rate, price range and search parameters *)

Import Config.

Section PriceRange.

Implicit Types (self cfg : SearchConfig) (avg_rent : float).

(** *** Zero tests on floats *)

Lemma float_is_zero_SF x :
  float_is_zero x = true -> exists s, Prim2SF x = S754_zero s.
Proof.
  unfold float_is_zero. rewrite FloatAxioms.eqb_spec.
  change (Prim2SF 0) with (S754_zero false).
  destruct (Prim2SF x) as [s | [] | | [] m e]; try discriminate; eauto.
Qed.

Lemma SF_float_is_zero x s : Prim2SF x = S754_zero s -> float_is_zero x = true.
Proof. intros Hx. unfold float_is_zero. rewrite FloatAxioms.eqb_spec, Hx. reflexivity. Qed.

(** A zero percentage is a zero fraction. *)
Lemma zero_percent x : float_is_zero x = true -> float_is_zero (x / 100) = true.
Proof.
  intros Hx. destruct (float_is_zero_SF x Hx) as [s Hs].
  apply (SF_float_is_zero _ (xorb s false)).
  rewrite FloatAxioms.div_spec, Hs. reflexivity.
Qed.

(** C3, as the specification states it, fails: with [target_roi = 0] the
    call raises the built-in [ZeroDivisionError], which is not
    [InvalidConfiguration]. *)
Lemma zero_roi_is_not_invalid_configuration :
  snd (calculate_price_range (with_target_roi 0 SearchConfig_default) 1400)
    = Raises ZeroDivisionError
  /\ snd (calculate_price_range (with_target_roi 0 SearchConfig_default) 1400)
    <> Raises InvalidConfiguration.
Proof.
  assert (Hrun : snd (calculate_price_range (with_target_roi 0 SearchConfig_default) 1400)
                 = Raises ZeroDivisionError) by (vm_compute; reflexivity).
  split; [exact Hrun | rewrite Hrun; discriminate].
Qed.

(** C3 (amended): on a configuration whose [target_roi] is zero,
    [calculate_price_range] raises [ZeroDivisionError] to its caller for
    every rent, and leaves the configuration as it was: no bound is
    stored. *)
Theorem zero_roi_raises cfg avg_rent :
  float_is_zero (target_roi cfg) = true ->
  calculate_price_range cfg avg_rent = (cfg, Raises ZeroDivisionError).
Proof.
  intros Hroi. apply zero_percent in Hroi.
  unfold calculate_price_range, implied_max_price, truediv.
  rewrite Hroi. destruct (cash_purchase (investment cfg)); reflexivity.
Qed.

Lemma zero_roi_raises_witness :
  float_is_zero (target_roi (with_target_roi 0 SearchConfig_default)) = true
  /\ calculate_price_range (with_target_roi 0 SearchConfig_default) 1400
     = (with_target_roi 0 SearchConfig_default, Raises ZeroDivisionError).
Proof.
  split; [reflexivity | apply zero_roi_raises; reflexivity].
Defined.

(** The price keys of the parameter dict follow the truthiness of the two
    fields, not whether they were assigned. *)
Lemma price_params cfg :
  to_zillow_params cfg !! "min_price" = PInt <$> truthy (min_price cfg)
  /\ to_zillow_params cfg !! "max_price" = PInt <$> truthy (max_price cfg).
Proof.
  unfold to_zillow_params.
  destruct (truthy (min_price cfg)) as [lo |], (truthy (max_price cfg)) as [hi |];
    split; reflexivity.
Qed.

(** C4 at its failing input: after [calculate_price_range(0)] on the
    default configuration both bounds are set, to 0, and the parameter
    dict has neither a [min_price] nor a [max_price] key. *)
Lemma zero_bounds_left_out_of_params :
  calculate_price_range SearchConfig_default 0
    = (set_min_price 0 (set_max_price 0 SearchConfig_default), Returns tt)
  /\ to_zillow_params (fst (calculate_price_range SearchConfig_default 0))
       !! "min_price" = None
  /\ to_zillow_params (fst (calculate_price_range SearchConfig_default 0))
       !! "max_price" = None.
Proof.
  assert (Hrun : calculate_price_range SearchConfig_default 0
                 = (set_min_price 0 (set_max_price 0 SearchConfig_default), Returns tt))
    by reflexivity.
  split; [exact Hrun |]. rewrite Hrun. cbn [fst].
  destruct (price_params (set_min_price 0 (set_max_price 0 SearchConfig_default)))
    as [-> ->].
  split; reflexivity.
Qed.

(** The fee rate in each of its cases; a custom fee is used when it is
    present and not zero. *)
Lemma management_fee_rate_cases (m : ManagementConfig) :
  (self_managed m = true -> management_fee_rate m = 0.0%float)
  /\ (self_managed m = false -> use_default_fee m = true ->
      management_fee_rate m = 0.10%float)
  /\ (self_managed m = false -> use_default_fee m = false ->
      forall fee, custom_fee m = Some fee -> float_is_zero fee = false ->
                  management_fee_rate m = (fee / 100)%float)
  /\ (self_managed m = false -> use_default_fee m = false ->
      custom_fee m = None -> management_fee_rate m = (10 / 100)%float).
Proof.
  unfold management_fee_rate, or_float. repeat split.
  - intros ->. reflexivity.
  - intros -> ->. reflexivity.
  - intros -> -> fee -> ->. reflexivity.
  - intros -> -> ->. reflexivity.
Qed.

(** C9 at its failing input: a managed configuration with the custom fee
    set to 0 has fee rate 0.10, not 0/100. *)
Lemma zero_custom_fee_rate :
  management_fee_rate (custom_fee_management 0) = 0.10%float
  /\ management_fee_rate (custom_fee_management 0) <> (0 / 100)%float.
Proof.
  split; [reflexivity |].
  intros Heq. apply (f_equal float_is_zero) in Heq. discriminate Heq.
Qed.

(** C10: [calculate_price_range] assigns no field other than [min_price]
    and [max_price]; whatever the rent and whatever the outcome, the
    configuration it leaves has the same [target_roi], [max_results],
    [min_days_on_market] and sub-configurations. *)
Theorem calculate_price_range_frame cfg avg_rent :
  let cfg' := fst (calculate_price_range cfg avg_rent) in
  target_roi cfg' = target_roi cfg
  /\ max_results cfg' = max_results cfg
  /\ min_days_on_market cfg' = min_days_on_market cfg
  /\ property cfg' = property cfg
  /\ rental_strategy cfg' = rental_strategy cfg
  /\ management cfg' = management cfg
  /\ location cfg' = location cfg
  /\ investment cfg' = investment cfg.
Proof.
  unfold calculate_price_range.
  destruct (implied_max_price cfg avg_rent) as [price | e];
    [| cbn; repeat split].
  destruct (int_of_float (price * 0.85)) as [hi | e]; [| cbn; repeat split].
  destruct (int_of_float (price * 0.4)) as [lo | e]; cbn; repeat split.
Qed.

End PriceRange.

(** ** Facts about binary64 rounding *)

Import Binary64.

Section Rounding.

(** digits *)
Lemma digits2_pos_size p : digits2_pos p = Pos.size p.
Proof. induction p; cbn; congruence. Qed.

Lemma digits2_bounds p :
  2 ^ (Zpos (digits2_pos p) - 1) <= Zpos p < 2 ^ Zpos (digits2_pos p).
Proof.
  rewrite digits2_pos_size.
  pose proof (Pos.size_gt p) as Hgt. pose proof (Pos.size_le p) as Hle.
  apply Pos2Z.pos_lt_pos in Hgt.
  apply Pos2Z.pos_le_pos in Hle.
  rewrite Pos2Z.inj_pow in Hgt, Hle.
  split; [| exact Hgt].
  replace (Zpos (Pos.size p)) with (Z.succ (Zpos (Pos.size p) - 1)) in Hle by lia.
  rewrite Z.pow_succ_r in Hle by lia. lia.
Qed.

Lemma iter_pos_iter {A} (f : A -> A) p : forall x, SpecFloat.iter_pos f p x = Pos.iter f x p.
Proof.
  induction p as [p IH | p IH |]; intros x; cbn.
  - rewrite !IH. rewrite <- !Pos.iter_swap. reflexivity.
  - rewrite !IH. reflexivity.
  - reflexivity.
Qed.

Lemma shr_1_m r : 0 <= shr_m r -> shr_m (shr_1 r) = Z.div2 (shr_m r).
Proof.
  destruct r as [m rb sb]; cbn. destruct m as [| [p | p |] | p]; cbn; try reflexivity; lia.
Qed.

Lemma shr_iter_m p : forall r, 0 <= shr_m r ->
  shr_m (SpecFloat.iter_pos shr_1 p r) = Z.shiftr (shr_m r) (Zpos p).
Proof.
  intros r Hr. rewrite iter_pos_iter.
  change (Z.shiftr (shr_m r) (Zpos p)) with (Pos.iter Z.div2 (shr_m r) p).
  revert r Hr. induction p using Pos.peano_ind; intros r Hr.
  - cbn. apply shr_1_m, Hr.
  - rewrite !Pos.iter_succ. 
    assert (H0 : 0 <= shr_m (Pos.iter shr_1 r p)).
    { rewrite IHp by exact Hr. 
      change (Pos.iter Z.div2 (shr_m r) p) with (Z.shiftr (shr_m r) (Zpos p)).
      apply Z.shiftr_nonneg, Hr. }
    rewrite shr_1_m by exact H0. rewrite IHp by exact Hr. reflexivity.
Qed.

Lemma shr_spec r e n : 0 <= shr_m r ->
  shr_m (fst (shr r e n)) = shr_m r / 2 ^ Z.max 0 n
  /\ snd (shr r e n) = e + Z.max 0 n.
Proof.
  intros Hr. destruct n as [| p | p]; cbn [shr fst snd].
  - rewrite Z.max_l by lia. cbn. rewrite Z.div_1_r. lia.
  - rewrite Z.max_r by lia. rewrite shr_iter_m by exact Hr.
    rewrite Z.shiftr_div_pow2 by lia. lia.
  - rewrite Z.max_l by lia. cbn. rewrite Z.div_1_r. lia.
Qed.

Lemma rne_bounds m l : m <= round_nearest_even m l <= m + 1.
Proof. destruct l as [| []]; cbn; try destruct (Z.even m); lia. Qed.

Lemma shr_m_of_loc m l : shr_m (shr_record_of_loc m l) = m.
Proof. destruct l as [| []]; reflexivity. Qed.

Lemma shr_fexp_spec m e l : 0 <= m ->
  shr_m (fst (shr_fexp prec emax m e l))
    = m / 2 ^ Z.max 0 (fexp prec emax (Zdigits2 m + e) - e)
  /\ snd (shr_fexp prec emax m e l)
    = e + Z.max 0 (fexp prec emax (Zdigits2 m + e) - e).
Proof.
  intros Hm. unfold shr_fexp.
  pose proof (shr_spec (shr_record_of_loc m l) e
                (fexp prec emax (Zdigits2 m + e) - e)) as H.
  rewrite shr_m_of_loc in H. exact (H Hm).
Qed.

Lemma fexp64 x : fexp prec emax x = Z.max (x - 53) (-1074).
Proof. reflexivity. Qed.

Lemma binary_round_aux_shape s mx ex lx :
  0 <= mx ->
  exists m1 n2,
    let n := shift1 (Zdigits2 mx) ex in
    mx / 2 ^ n <= m1 <= mx / 2 ^ n + 1
    /\ n2 = shift1 (Zdigits2 m1) (ex + n)
    /\ binary_round_aux prec emax s mx ex lx = rounded s (m1 / 2 ^ n2) (ex + n + n2).
Proof.
  intros Hmx. unfold binary_round_aux.
  destruct (shr_fexp_spec mx ex lx Hmx) as [Hm' He'].
  destruct (shr_fexp prec emax mx ex lx) as [mrs' e']. cbn [fst snd] in Hm', He'.
  set (m1 := round_nearest_even (shr_m mrs') (loc_of_shr_record mrs')).
  pose proof (rne_bounds (shr_m mrs') (loc_of_shr_record mrs')) as Hrne.
  fold m1 in Hrne. rewrite Hm', fexp64 in Hrne.
  assert (Hm1 : 0 <= m1).
  { destruct Hrne as [Hlo _]. etransitivity; [| exact Hlo].
    apply Z.div_pos; [exact Hmx | apply Z.pow_pos_nonneg; lia]. }
  destruct (shr_fexp_spec m1 e' loc_Exact Hm1) as [Hm'' He''].
  destruct (shr_fexp prec emax m1 e' loc_Exact) as [mrs'' e''].
  cbn [fst snd] in Hm'', He''. rewrite fexp64 in *.
  exists m1, (shift1 (Zdigits2 m1) e'). cbv zeta.
  split; [exact Hrne |]. subst e'. split; [reflexivity |].
  rewrite Hm'', He''. reflexivity.
Qed.

(** [Z.shiftl m e] is the integer part of [m * 2^e]; with a scale [K] that
    makes the exponents non-negative it is a quotient of integers. *)
Lemma shiftl_scaled m e K :
  0 <= K -> 0 <= e + K -> Z.shiftl m e = (m * 2 ^ (e + K)) / 2 ^ K.
Proof.
  intros HK HeK. destruct (Z.le_gt_cases 0 e) as [He | He].
  - rewrite Z.shiftl_mul_pow2 by exact He.
    rewrite Z.pow_add_r by lia. rewrite Z.mul_assoc.
    rewrite Z.div_mul; [reflexivity | apply Z.pow_nonzero; lia].
  - rewrite Z.shiftl_div_pow2 by lia.
    replace K with ((- e) + (e + K)) at 2 by lia.
    rewrite (Z.pow_add_r 2 (- e)) by lia.
    rewrite Z.div_mul_cancel_r; [reflexivity | |]; apply Z.pow_nonzero; lia.
Qed.

Lemma pow2_scaled E K :
  0 <= K -> 0 <= E + K -> 2 ^ E = 2 ^ (E + K) / 2 ^ K.
Proof.
  intros HK HEK. destruct (Z.le_gt_cases 0 E) as [HE | HE].
  - rewrite Z.pow_add_r by lia.
    rewrite Z.div_mul; [reflexivity | apply Z.pow_nonzero; lia].
  - rewrite Z.pow_neg_r by exact HE. symmetry. apply Z.div_small.
    split; [apply Z.pow_nonneg; lia | apply Z.pow_lt_mono_r; lia].
Qed.

Lemma shiftl_le_pow2 m e E K :
  0 <= K -> 0 <= e + K -> 0 <= E + K ->
  m * 2 ^ (e + K) <= 2 ^ (E + K) -> Z.shiftl m e <= 2 ^ E.
Proof.
  intros HK HeK HEK Hle.
  rewrite (shiftl_scaled m e K), (pow2_scaled E K) by assumption.
  apply Z.div_le_mono; [apply Z.pow_pos_nonneg; lia | exact Hle].
Qed.

Lemma pow2_le_shiftl m e E K :
  0 <= K -> 0 <= e + K -> 0 <= E + K ->
  2 ^ (E + K) <= m * 2 ^ (e + K) -> 2 ^ E <= Z.shiftl m e.
Proof.
  intros HK HeK HEK Hle.
  rewrite (shiftl_scaled m e K), (pow2_scaled E K) by assumption.
  apply Z.div_le_mono; [apply Z.pow_pos_nonneg; lia | exact Hle].
Qed.

Lemma rounded_finite s m e s' m' e' :
  rounded s m e = S754_finite s' m' e' -> s' = s /\ m = Zpos m' /\ e' = e.
Proof.
  unfold rounded. destruct m as [| p | p]; try discriminate.
  destruct (e <=? emax - prec); [| discriminate].
  intros [= -> -> ->]. auto.
Qed.

(** The result of rounding [mx * 2^ex], when finite, has the sign asked
    for and is at most the power of two above the exact value. *)
Lemma round_upper s mx ex lx s' m e :
  binary_round_aux prec emax s (Zpos mx) ex lx = S754_finite s' m e ->
  s' = s /\ Z.shiftl (Zpos m) e <= 2 ^ (Zpos (digits2_pos mx) + ex).
Proof.
  intros Hres.
  destruct (binary_round_aux_shape s (Zpos mx) ex lx) as (m1 & n2 & Hshape);
    [lia |].
  cbv zeta in Hshape. destruct Hshape as (Hm1 & Hn2 & Hrun).
  rewrite Hrun in Hres. clear Hrun.
  apply rounded_finite in Hres as (-> & Hm & ->).
  split; [reflexivity |].
  cbn [Zdigits2] in Hm1 |- *.
  pose proof (digits2_bounds mx) as [_ Hmx].
  set (D := Zpos (digits2_pos mx)) in *.
  assert (HD : 0 < D) by (unfold D; lia). clearbody D.
  assert (Hn : 0 <= shift1 D ex) by (unfold shift1; lia).
  assert (Hn2' : 0 <= n2) by (subst n2; unfold shift1; lia).
  assert (HnD : D + ex < -1074 /\ D < shift1 D ex /\ ex + shift1 D ex = -1074
                \/ shift1 D ex <= D) by (unfold shift1; lia).
  set (n := shift1 D ex) in *. clearbody n. clear Hn2.
  assert (Hpn : 0 < 2 ^ n) by (apply Z.pow_pos_nonneg; lia).
  assert (Hpn2 : 0 < 2 ^ n2) by (apply Z.pow_pos_nonneg; lia).
  assert (Hmul : Zpos m * 2 ^ n2 <= m1).
  { rewrite <- Hm, Z.mul_comm. apply Z.mul_div_le. exact Hpn2. }
  clear Hm.
  destruct HnD as [(Hsub & HnD & He) | HnD].
  - (* below the smallest subnormal: the mantissa is 1 at exponent -1074 *)
    assert (Hq : Zpos mx / 2 ^ n = 0).
    { apply Z.div_small. split; [lia |].
      assert (2 ^ D < 2 ^ n) by (apply Z.pow_lt_mono_r; lia). lia. }
    rewrite Hq in Hm1.
    assert (Hn20 : n2 = 0).
    { destruct (Z.eq_dec n2 0) as [| Hne]; [assumption | exfalso].
      assert (2 ^ 1 <= 2 ^ n2) by (apply Z.pow_le_mono_r; lia).
      change (2 ^ 1) with 2 in *. nia. }
    subst n2. change (2 ^ 0) with 1 in Hmul.
    assert (Hm1' : Zpos m = 1) by lia.
    rewrite Hm1'. replace (ex + n + 0) with (-1074) by lia.
    rewrite Z.shiftl_div_pow2 by lia. rewrite Z.div_small.
    + apply Z.pow_nonneg. lia.
    + split; [lia |]. apply Z.pow_gt_1; lia.
  - assert (Hq : Zpos mx / 2 ^ n < 2 ^ (D - n)).
    { apply Z.div_lt_upper_bound; [exact Hpn |].
      rewrite <- Z.pow_add_r by lia. replace (n + (D - n)) with D by lia.
      exact Hmx. }
    set (K := Z.max 0 (- ex)).
    assert (HK : 0 <= K /\ 0 <= ex + K) by (unfold K; lia). clearbody K.
    apply (shiftl_le_pow2 _ _ _ K); [lia | lia | lia |].
    replace (ex + n + n2 + K) with (n2 + (n + (ex + K))) by lia.
    replace (D + ex + K) with ((D - n) + (n + (ex + K))) by lia.
    destruct HK as [HK HexK].
    rewrite (Z.pow_add_r 2 n2), (Z.pow_add_r 2 (D - n)) by lia.
    rewrite Z.mul_assoc.
    apply Z.mul_le_mono_nonneg_r; [apply Z.pow_nonneg; lia | lia].
Qed.

(** In the normal range the result is not zero and is at least the power
    of two below the exact value. *)
Lemma round_lower s mx ex lx :
  1 <= Zpos (digits2_pos mx) + ex ->
  53 <= Zpos (digits2_pos mx) ->
  binary_round_aux prec emax s (Zpos mx) ex lx = S754_infinity s
  \/ exists m e,
       binary_round_aux prec emax s (Zpos mx) ex lx = S754_finite s m e
       /\ 2 ^ (Zpos (digits2_pos mx) + ex - 1) <= Z.shiftl (Zpos m) e.
Proof.
  intros HE HD53.
  destruct (binary_round_aux_shape s (Zpos mx) ex lx) as (m1 & n2 & Hshape);
    [lia |].
  cbv zeta in Hshape. destruct Hshape as (Hm1 & Hn2 & ->).
  cbn [Zdigits2] in Hm1, Hn2 |- *.
  pose proof (digits2_bounds mx) as [Hmx_lo Hmx_hi].
  set (D := Zpos (digits2_pos mx)) in *. clearbody D.
  assert (Hn : shift1 D ex = D - 53) by (unfold shift1; lia).
  rewrite Hn in *. clear Hn.
  assert (Hp : 0 < 2 ^ (D - 53)) by (apply Z.pow_pos_nonneg; lia).
  assert (Hq_lo : 2 ^ 52 <= Zpos mx / 2 ^ (D - 53)).
  { apply Z.div_le_lower_bound; [exact Hp |].
    rewrite <- Z.pow_add_r by lia. replace (D - 53 + 52) with (D - 1) by lia.
    exact Hmx_lo. }
  assert (Hq_hi : Zpos mx / 2 ^ (D - 53) < 2 ^ 53).
  { apply Z.div_lt_upper_bound; [exact Hp |].
    rewrite <- Z.pow_add_r by lia. replace (D - 53 + 53) with D by lia.
    exact Hmx_hi. }
  set (q := Zpos mx / 2 ^ (D - 53)) in *. clearbody q.
  assert (Hm1_lo : 2 ^ 52 <= m1) by lia.
  assert (Hm1_hi : m1 <= 2 ^ 53) by lia.
  clear Hm1 Hq_lo Hq_hi Hmx_lo Hmx_hi q.
  assert (Hd1 : 53 <= Zdigits2 m1 <= 54).
  { destruct m1 as [| q | q]; [lia | | lia].
    cbn [Zdigits2]. pose proof (digits2_bounds q) as [Hlo Hhi].
    split.
    - assert (H : 2 ^ 52 < 2 ^ Zpos (digits2_pos q)) by lia.
      apply Z.pow_lt_mono_r_iff in H; lia.
    - assert (H : 2 ^ (Zpos (digits2_pos q) - 1) < 2 ^ 54).
      { eapply Z.le_lt_trans; [exact Hlo |].
        eapply Z.le_lt_trans; [exact Hm1_hi | reflexivity]. }
      apply Z.pow_lt_mono_r_iff in H; lia. }
  assert (Hn2' : n2 = 0 \/ n2 = 1) by (subst n2; unfold shift1; lia).
  clear Hn2 Hd1.
  assert (Hm : 2 ^ 52 <= (m1 / 2 ^ n2) * 2 ^ n2).
  { destruct Hn2' as [-> | ->].
    - change (2 ^ 0) with 1. rewrite Z.div_1_r. lia.
    - change (2 ^ 1) with 2.
      assert (2 ^ 51 <= m1 / 2).
      { apply Z.div_le_lower_bound; [lia |]. exact Hm1_lo. }
      change (2 ^ 52) with (2 ^ 51 * 2). lia. }
  assert (Hpos : 0 < m1 / 2 ^ n2).
  { assert (0 < 2 ^ n2) by (apply Z.pow_pos_nonneg; lia).
    assert (0 < 2 ^ 52) by reflexivity. nia. }
  unfold rounded.
  destruct (m1 / 2 ^ n2) as [| m | m] eqn:Hquot; [lia | | lia].
  destruct (ex + (D - 53) + n2 <=? emax - prec); [right | left; reflexivity].
  exists m, (ex + (D - 53) + n2). split; [reflexivity |].
  set (K := Z.max 0 (- ex)).
  assert (HK : 0 <= K /\ 0 <= ex + K) by (unfold K; lia). clearbody K.
  destruct HK as [HK HexK].
  apply (pow2_le_shiftl _ _ _ K); [lia | lia | lia |].
  replace (D + ex - 1 + K) with (52 + ((D - 53) + (ex + K))) by lia.
  replace (ex + (D - 53) + n2 + K) with (n2 + ((D - 53) + (ex + K))) by lia.
  rewrite (Z.pow_add_r 2 52), (Z.pow_add_r 2 n2) by lia.
  rewrite Z.mul_assoc.
  apply Z.mul_le_mono_nonneg_r; [apply Z.pow_nonneg; lia | exact Hm].
Qed.

(** Whatever the mantissa, the result has the sign asked for. *)
Lemma round_sign s mx ex lx :
  match binary_round_aux prec emax s mx ex lx with
  | S754_zero s' | S754_infinity s' | S754_finite s' _ _ => s' = s
  | S754_nan => True
  end.
Proof.
  unfold binary_round_aux.
  destruct (shr_fexp prec emax mx ex lx) as [mrs' e'].
  destruct (shr_fexp prec emax _ e' loc_Exact) as [mrs'' e''].
  destruct (shr_m mrs''); [reflexivity | | exact I].
  destruct (e'' <=? emax - prec); reflexivity.
Qed.

End Rounding.

Section Signs.

Lemma round_not_negative mx ex lx :
  not_negative (binary_round_aux prec emax false mx ex lx).
Proof.
  pose proof (round_sign false mx ex lx) as H. unfold not_negative.
  destruct (binary_round_aux prec emax false mx ex lx); auto.
Qed.

Lemma mul_not_negative x y :
  not_negative x -> not_negative y -> not_negative (SF64mul x y).
Proof.
  unfold SF64mul, SFmul, not_negative.
  destruct x as [sx | sx | | sx mx ex], y as [sy | sy | | sy my ey];
    intros Hx Hy; subst; try exact I; try reflexivity.
  apply round_not_negative.
Qed.

Lemma div_not_negative x y :
  not_negative x -> not_negative y -> (forall s, y <> S754_zero s) ->
  not_negative (SF64div x y).
Proof.
  unfold SF64div, SFdiv.
  destruct x as [sx | sx | | sx mx ex], y as [sy | sy | | sy my ey];
    intros Hx Hy Hnz; cbn [not_negative] in *; subst;
    try exact I; try reflexivity;
    try (exfalso; apply (Hnz sy); reflexivity).
  destruct (SFdiv_core_binary prec emax (Zpos mx) ex (Zpos my) ey) as [[mz ez] lz].
  apply round_not_negative.
Qed.

Lemma leb_0_not_negative x : (0 <=? x)%float = true -> not_negative (Prim2SF x).
Proof.
  rewrite FloatAxioms.leb_spec. change (Prim2SF 0) with (S754_zero false).
  destruct (Prim2SF x) as [s | [] | | [] m e]; cbn; try discriminate; auto.
Qed.

Lemma ltb_0_not_negative x :
  (0 <? x)%float = true ->
  not_negative (Prim2SF x) /\ forall s, Prim2SF x <> S754_zero s.
Proof.
  rewrite FloatAxioms.ltb_spec. change (Prim2SF 0) with (S754_zero false).
  destruct (Prim2SF x) as [s | [] | | [] m e]; cbn; try discriminate;
    split; auto; discriminate.
Qed.

Lemma iter_xO m d : Zpos (Pos.iter xO m d) = Zpos m * 2 ^ Zpos d.
Proof.
  induction d as [| d IH] using Pos.peano_ind.
  - cbn. lia.
  - rewrite Pos.iter_succ, Pos2Z.inj_xO, IH, Pos2Z.inj_succ, Z.pow_succ_r by lia.
    lia.
Qed.

Lemma shl_align_fst mx ex ex' :
  Zpos (fst (shl_align mx ex ex')) = Zpos mx * 2 ^ Z.max 0 (ex - ex').
Proof.
  unfold shl_align. destruct (ex' - ex) as [| d | d] eqn:Hd; cbn [fst].
  - rewrite Z.max_l by lia. lia.
  - rewrite Z.max_l by lia. lia.
  - rewrite iter_xO. f_equal. f_equal. lia.
Qed.

Lemma normalize_not_negative z e :
  0 <= z -> not_negative (binary_normalize prec emax z e false).
Proof.
  intros Hz. destruct z as [| p | p]; cbn; [exact I | | lia].
  unfold binary_round. destruct (shl_align _ _ _) as [mz ez].
  apply round_not_negative.
Qed.

Lemma leb_one_cases (sr : bool) (mr : positive) (er : Z) :
  SFleb (S754_finite sr mr er) (S754_finite false 4503599627370496 (-52)) = true ->
  sr = true \/ sr = false /\ (er < -52 \/ er = -52 /\ Zpos mr <= 4503599627370496).
Proof.
intros Hle.
destruct sr; [left; reflexivity | right; split; [reflexivity |]].
unfold SFleb, SFcompare in Hle.
destruct (er ?= -52) eqn:Hcmp; [right | left | discriminate].
2: (apply Z.compare_lt_iff; exact Hcmp).
apply Z.compare_eq in Hcmp.
split; [exact Hcmp |].
rewrite Pos.compare_cont_spec in Hle. cbn [Pos.switch_Eq] in Hle.
destruct (Pos.compare_spec mr 4503599627370496) as [Hm | Hm | Hm]; [| | discriminate].
1: (subst mr; apply Z.le_refl).
apply Pos2Z.pos_lt_pos in Hm.
apply Z.lt_le_incl. exact Hm.
Qed.

(** [1 - r] has no negative sign when [r <= 1]. *)
Lemma one_minus_not_negative r :
  (r <=? 1)%float = true -> not_negative (Prim2SF (1 - r)).
Proof.
  rewrite FloatAxioms.leb_spec, FloatAxioms.sub_spec. pose proof (FloatAxioms.Prim2SF_valid r) as Hvalid.
  change (Prim2SF 1) with (S754_finite false 4503599627370496 (-52)).
  unfold SF64sub, SFsub.
  destruct (Prim2SF r) as [s | s | | sr mr er].
  - intros _. reflexivity.
  - destruct s; [intros _; reflexivity | discriminate].
  - discriminate.
  - intros Hle. apply leb_one_cases in Hle as Hcases. clear Hle.
    apply normalize_not_negative.
    rewrite (shl_align_fst 4503599627370496 (-52)), (shl_align_fst mr er).
    cbn [valid_binary] in Hvalid. unfold bounded, canonical_mantissa in Hvalid.
    apply andb_prop in Hvalid as [Hcanon _]. apply Z.eqb_eq in Hcanon.
    rewrite fexp64 in Hcanon.
    pose proof (digits2_bounds mr) as [_ Hmr].
    assert (Hmr53 : Zpos mr < 2 ^ 53).
    { eapply Z.lt_le_trans; [exact Hmr |]. apply Z.pow_le_mono_r; lia. }
    clear Hmr Hcanon.
    set (a := Z.max 0 (-52 - Z.min (-52) er)).
    set (b := Z.max 0 (er - Z.min (-52) er)).
    assert (Ha : 0 < 2 ^ a) by (apply Z.pow_pos_nonneg; unfold a; lia).
    assert (Hb : 0 < 2 ^ b) by (apply Z.pow_pos_nonneg; unfold b; lia).
    assert (Hab : sr = false ->
                  b = 0 /\ (a = 0 /\ Zpos mr <= 4503599627370496 \/ 1 <= a)).
    { intros ->. destruct Hcases as [Hneg | [_ Hpos]]; [discriminate Hneg |].
      unfold a, b. lia. }
    clearbody a b. clear Hcases.
    destruct sr; cbn [cond_Zopp].
    + assert (0 < Zpos mr * 2 ^ b) by (apply Z.mul_pos_pos; lia).
      assert (0 < 4503599627370496 * 2 ^ a) by (apply Z.mul_pos_pos; lia).
      lia.
    + destruct (Hab eq_refl) as [-> [[-> Hm] | Ha1]]; change (2 ^ 0) with 1.
      * lia.
      * assert (H2 : 2 ^ 1 <= 2 ^ a) by (apply Z.pow_le_mono_r; lia).
        change (2 ^ 1) with 2 in H2.
        change (2 ^ 53) with 9007199254740992 in Hmr53.
        assert (4503599627370496 * 2 <= 4503599627370496 * 2 ^ a)
          by (apply Z.mul_le_mono_nonneg_l; lia).
        lia.
Qed.

End Signs.

Section Bounds.

Lemma digits2_le a b :
  Zpos a <= Zpos b -> Zpos (digits2_pos a) <= Zpos (digits2_pos b).
Proof.
  intros Hab. pose proof (digits2_bounds a) as [Ha _].
  pose proof (digits2_bounds b) as [_ Hb].
  assert (H : 2 ^ (Zpos (digits2_pos a) - 1) < 2 ^ Zpos (digits2_pos b)) by lia.
  apply Z.pow_lt_mono_r_iff in H; lia.
Qed.

(** Truncating the roundings of [x * cA * 2^eA] and [x * cB * 2^(eA-1)],
    with [cB <= cA] both of 53 bits: the second is below the first. *)
Lemma rounded_products_ordered mp ep cA cB eA :
  2 ^ 52 <= Zpos cB -> Zpos cB <= Zpos cA ->
  let RA := binary_round_aux prec emax false (Zpos (mp * cA)) (ep + eA) loc_Exact in
  let RB := binary_round_aux prec emax false (Zpos (mp * cB)) (ep + (eA - 1)) loc_Exact in
  forall hi lo,
    match RA with
    | S754_zero _ => Returns 0
    | S754_nan => Raises ValueError
    | S754_infinity _ => Raises OverflowError
    | S754_finite s m e =>
        Returns (if s then - Z.shiftl (Zpos m) e else Z.shiftl (Zpos m) e)
    end = Returns hi ->
    match RB with
    | S754_zero _ => Returns 0
    | S754_nan => Raises ValueError
    | S754_infinity _ => Raises OverflowError
    | S754_finite s m e =>
        Returns (if s then - Z.shiftl (Zpos m) e else Z.shiftl (Zpos m) e)
    end = Returns lo ->
    0 <= lo <= hi.
Proof.
  intros HcB HcAB RA RB hi lo HA HB.
  set (DA := Zpos (digits2_pos (mp * cA))).
  set (DB := Zpos (digits2_pos (mp * cB))).
  assert (HDBA : DB <= DA).
  { apply digits2_le. rewrite !Pos2Z.inj_mul. apply Z.mul_le_mono_nonneg_l; lia. }
  assert (HDA : 53 <= DA).
  { pose proof (digits2_bounds (mp * cA)) as [_ Hhi]. fold DA in Hhi.
    rewrite Pos2Z.inj_mul in Hhi.
    assert (H : 2 ^ 52 < 2 ^ DA) by nia.
    apply Z.pow_lt_mono_r_iff in H; unfold DA; lia. }
  (* the smaller product: sign and upper bound *)
  assert (HloB : 0 <= lo <= 2 ^ (DB + (ep + (eA - 1)))).
  { pose proof (round_sign false (Zpos (mp * cB)) (ep + (eA - 1)) loc_Exact) as Hs.
    fold RB in Hs.
    destruct RB as [s | s | | s m e] eqn:HRB; try discriminate.
    - injection HB as <-. split; [lia | apply Z.pow_nonneg; lia].
    - subst s. injection HB as <-.
      apply round_upper in HRB as [_ Hup]. fold DB in Hup.
      split; [apply Z.shiftl_nonneg; lia | exact Hup]. }
  assert (HpowBA : 1 <= DA + (ep + eA) ->
                   2 ^ (DB + (ep + (eA - 1))) <= 2 ^ (DA + (ep + eA) - 1))
    by (intros; apply Z.pow_le_mono_r; lia).
  destruct (Z.le_gt_cases 1 (DA + (ep + eA))) as [Hnormal | Hsmall].
  - destruct (round_lower false (mp * cA) (ep + eA) loc_Exact Hnormal HDA)
      as [Hinf | (m & e & Hfin & Hlow)]; fold RA in Hinf || fold RA in Hfin.
    + rewrite Hinf in HA. discriminate HA.
    + rewrite Hfin in HA. injection HA as <-. fold DA in Hlow.
      specialize (HpowBA Hnormal). lia.
  - assert (Hlo0 : lo = 0).
    { rewrite Z.pow_neg_r in HloB by lia. lia. }
    subst lo. split; [lia |].
    pose proof (round_sign false (Zpos (mp * cA)) (ep + eA) loc_Exact) as Hs.
    fold RA in Hs.
    destruct RA as [s | s | | s m e]; try discriminate.
    + injection HA as <-. lia.
    + subst s. injection HA as <-. apply Z.shiftl_nonneg. lia.
Qed.

(** The two bounds taken from a price that is not negative. *)
Lemma bounds_ordered price hi lo :
  not_negative (Prim2SF price) ->
  int_of_float (price * 0.85) = Returns hi ->
  int_of_float (price * 0.4) = Returns lo ->
  0 <= lo <= hi.
Proof.
  unfold int_of_float. rewrite !FloatAxioms.mul_spec.
  change (Prim2SF 0.85) with (S754_finite false 7656119366529843 (-53)).
  change (Prim2SF 0.4) with (S754_finite false 7205759403792794 (-54)).
  unfold SF64mul, SFmul.
  destruct (Prim2SF price) as [s | s | | s mp ep]; cbn [not_negative];
    intros Hsign Hhi Hlo; try discriminate.
  - injection Hhi as <-. injection Hlo as <-. lia.
  - subst s. cbn [xorb] in Hhi, Hlo.
    exact (rounded_products_ordered mp ep 7656119366529843 7205759403792794 (-53)
             ltac:(lia) ltac:(lia) hi lo Hhi Hlo).
Qed.

End Bounds.

Section Range.

Lemma nonzero_SF x : float_is_zero x = false -> forall s, Prim2SF x <> S754_zero s.
Proof.
  intros Hx s Hs. apply SF_float_is_zero in Hs. congruence.
Qed.

Lemma literal_not_negative (c : float) :
  match Prim2SF c with S754_finite false _ _ => True | _ => False end ->
  not_negative (Prim2SF c).
Proof. destruct (Prim2SF c) as [| | | [] m e]; cbn; tauto. Qed.

Lemma truediv_not_negative x y q :
  not_negative (Prim2SF x) -> not_negative (Prim2SF y) ->
  truediv x y = Returns q -> not_negative (Prim2SF q).
Proof.
  intros Hx Hy. unfold truediv.
  destruct (float_is_zero y) eqn:Hz; [discriminate |].
  intros [= <-]. rewrite FloatAxioms.div_spec.
  apply div_not_negative; [exact Hx | exact Hy | apply nonzero_SF, Hz].
Qed.

Lemma implied_max_price_not_negative cfg avg_rent price :
  (0 <=? avg_rent)%float = true ->
  (0 <? target_roi cfg)%float = true ->
  (management_fee_rate (management cfg) <=? 1)%float = true ->
  (cash_purchase (investment cfg) = false ->
   (0 <=? down_payment_rate (investment cfg))%float = true) ->
  implied_max_price cfg avg_rent = Returns price ->
  not_negative (Prim2SF price).
Proof.
  intros Hrent Hroi Hfee Hdown. unfold implied_max_price.
  assert (Hannual : not_negative
            (Prim2SF (avg_rent * (1 - management_fee_rate (management cfg)) * 0.5 * 12))).
  { rewrite !FloatAxioms.mul_spec. repeat apply mul_not_negative.
    - apply leb_0_not_negative, Hrent.
    - apply one_minus_not_negative, Hfee.
    - apply literal_not_negative. exact I.
    - apply literal_not_negative. exact I. }
  assert (Hdecimal : not_negative (Prim2SF (target_roi cfg / 100))).
  { rewrite FloatAxioms.div_spec. apply div_not_negative.
    - apply ltb_0_not_negative, Hroi.
    - apply literal_not_negative. exact I.
    - intros s. discriminate. }
  destruct (cash_purchase (investment cfg)).
  - apply truediv_not_negative; assumption.
  - destruct (truediv _ (target_roi cfg / 100)) as [quotient | e] eqn:Hq;
      cbn [bind]; [| discriminate].
    apply truediv_not_negative.
    + exact (truediv_not_negative _ _ _ Hannual Hdecimal Hq).
    + apply leb_0_not_negative, Hdown. reflexivity.
Qed.

End Range.

Section Finite.

Lemma is_finite_SF x : is_finite x = true -> finite_or_zero (Prim2SF x).
Proof.
  unfold is_finite, is_nan, is_infinity.
  rewrite negb_true_iff, orb_false_iff, negb_false_iff.
  rewrite !FloatAxioms.eqb_spec, FloatAxioms.abs_spec.
  change (Prim2SF infinity) with (S754_infinity false).
  destruct (Prim2SF x) as [s | s | | s m e]; cbn; intros [Hnan Hinf];
    try exact I; discriminate.
Qed.

(** The rounding of [mp * 2^ep] times a 53-bit constant below one does not
    overflow. *)
Lemma product_is_finite s mp ep c ec :
  Zpos mp < 2 ^ 53 -> -1074 <= ep <= 971 -> Zpos c < 2 ^ 53 -> ec <= -53 ->
  finite_or_zero
    (binary_round_aux prec emax s (Zpos (mp * c)) (ep + ec) loc_Exact).
Proof.
  intros Hmp Hep Hc Hec.
  destruct (binary_round_aux_shape s (Zpos (mp * c)) (ep + ec) loc_Exact)
    as (m1 & n2 & Hshape); [lia |].
  cbv zeta in Hshape. destruct Hshape as (Hm1 & Hn2 & ->).
  cbn [Zdigits2] in Hm1, Hn2 |- *.
  pose proof (digits2_bounds (mp * c)) as [HDlo HDhi].
  set (D := Zpos (digits2_pos (mp * c))) in *.
  assert (HD1 : 1 <= D) by (unfold D; lia).
  rewrite Pos2Z.inj_mul in *.
  assert (Hprod : Zpos mp * Zpos c < 2 ^ 106).
  { change (2 ^ 106) with (2 ^ 53 * 2 ^ 53). nia. }
  assert (HD106 : D <= 106).
  { assert (H : 2 ^ (D - 1) < 2 ^ 106) by lia.
    apply Z.pow_lt_mono_r_iff in H; lia. }
  clearbody D.
  set (n := shift1 D (ep + ec)) in *.
  assert (Hn : 0 <= n /\ D - 53 <= n) by (unfold n, shift1; lia).
  assert (He' : ep + ec + n <= ep) by (unfold n, shift1; lia).
  assert (Hpn : 0 < 2 ^ n) by (apply Z.pow_pos_nonneg; lia).
  (* the shifted mantissa has at most 53 bits *)
  assert (Hq53 : Zpos mp * Zpos c / 2 ^ n < 2 ^ 53).
  { apply Z.div_lt_upper_bound; [exact Hpn |].
    eapply Z.lt_le_trans; [exact HDhi |].
    rewrite <- Z.pow_add_r by lia. apply Z.pow_le_mono_r; lia. }
  (* and fewer when the exponent stays at [ep] *)
  assert (Hqtop : ep + ec + n = ep -> Zpos mp * Zpos c / 2 ^ n + 1 < 2 ^ 53).
  { intros Heq. assert (Hn53 : 53 <= n) by lia.
    assert (Hq : Zpos mp * Zpos c / 2 ^ n < Zpos c); [| lia].
    apply Z.div_lt_upper_bound; [exact Hpn |].
    assert (2 ^ 53 <= 2 ^ n) by (apply Z.pow_le_mono_r; lia). nia. }
  clearbody n.
  set (q := Zpos mp * Zpos c / 2 ^ n) in *.
  assert (Hq0 : 0 <= q) by (apply Z.div_pos; lia).
  clearbody q. clear HDlo HDhi Hprod.
  assert (Hm1_53 : m1 <= 2 ^ 53) by lia.
  assert (Hd1 : Zdigits2 m1 <= 54 /\ (m1 < 2 ^ 53 -> Zdigits2 m1 <= 53)).
  { destruct m1 as [| p | p]; cbn [Zdigits2]; [lia | | lia].
    pose proof (digits2_bounds p) as [Hlo _]. split.
    - assert (H : 2 ^ (Zpos (digits2_pos p) - 1) < 2 ^ 54).
      { eapply Z.le_lt_trans; [exact Hlo |].
        eapply Z.le_lt_trans; [exact Hm1_53 | reflexivity]. }
      apply Z.pow_lt_mono_r_iff in H; lia.
    - intros Hlt.
      assert (H : 2 ^ (Zpos (digits2_pos p) - 1) < 2 ^ 53) by lia.
      apply Z.pow_lt_mono_r_iff in H; lia. }
  assert (He'' : ep + ec + n + n2 <= 971).
  { destruct Hd1 as [Hd54 Hd53]. subst n2. unfold shift1.
    destruct (Z.eq_dec (ep + ec + n) ep) as [Heq | Hne].
    - specialize (Hqtop Heq). specialize (Hd53 ltac:(lia)). lia.
    - lia. }
  assert (Hm'' : 0 <= m1 / 2 ^ n2).
  { apply Z.div_pos; [lia | apply Z.pow_pos_nonneg; subst n2; unfold shift1; lia]. }
  unfold rounded. destruct (m1 / 2 ^ n2) as [| m | m]; [exact I | | lia].
  replace (ep + ec + n + n2 <=? emax - prec) with true; [exact I |].
  symmetry. apply Z.leb_le. exact He''.
Qed.

End Finite.

(** ** The resolved price range *)

Section PriceBounds.

Implicit Types (cfg : SearchConfig) (avg_rent price : float).

(** A finite price scaled by a 53-bit constant below one converts to an
    integer. *)
Lemma int_of_scaled_returns price c mc ec :
  is_finite price = true ->
  Prim2SF c = S754_finite false mc ec -> Zpos mc < 2 ^ 53 -> ec <= -53 ->
  exists z, int_of_float (price * c) = Returns z.
Proof.
  intros Hfin Hc Hmc Hec. unfold int_of_float.
  rewrite FloatAxioms.mul_spec, Hc.
  pose proof (FloatAxioms.Prim2SF_valid price) as Hvalid.
  apply is_finite_SF in Hfin.
  destruct (Prim2SF price) as [s | s | | s mp ep]; cbn [finite_or_zero] in Hfin;
    try contradiction.
  - cbn. eauto.
  - unfold SF64mul, SFmul.
    cbn [valid_binary] in Hvalid. unfold bounded, canonical_mantissa in Hvalid.
    apply andb_prop in Hvalid as [Hcanon Hemax].
    apply Z.eqb_eq in Hcanon. apply Z.leb_le in Hemax.
    rewrite fexp64 in Hcanon. change (emax - prec) with 971 in Hemax.
    pose proof (digits2_bounds mp) as [_ Hmp].
    assert (Hmp53 : Zpos mp < 2 ^ 53).
    { eapply Z.lt_le_trans; [exact Hmp |]. apply Z.pow_le_mono_r; lia. }
    pose proof (product_is_finite (xorb s false) mp ep mc ec
                  Hmp53 ltac:(lia) Hmc Hec) as Hprod.
    destruct (binary_round_aux prec emax (xorb s false) (Zpos (mp * mc)) (ep + ec)
                loc_Exact); cbn [finite_or_zero] in Hprod;
      try contradiction; eauto.
Qed.

(** C7, as the specification states it, fails: with a custom management
    fee of 200 percent (rent 1400 and the default target ROI of 10) the
    call returns with [max_price = -71400] and [min_price = -33600], which
    are negative and in the wrong order. *)
Lemma fee_above_100_inverts_bounds :
  (0 <=? 1400)%float = true
  /\ (0 <? target_roi (with_management (custom_fee_management 200)
                        SearchConfig_default))%float = true
  /\ calculate_price_range
       (with_management (custom_fee_management 200) SearchConfig_default) 1400
     = (set_min_price (-33600)
          (set_max_price (-71400)
             (with_management (custom_fee_management 200) SearchConfig_default)),
        Returns tt)
  /\ ~ (0 <= -33600 <= -71400).
Proof. repeat split; try reflexivity. lia. Qed.

(** C7 (amended): take a rent that is not negative and a configuration
    with a positive target ROI, a management fee rate of at most 1 and,
    when the purchase is financed, a down-payment rate that is not
    negative.  Whenever [calculate_price_range] returns, both bounds are
    set, to integers with [0 <= min_price <= max_price]; and it returns
    whenever the implied maximum price is a finite float.  The default
    configuration and the three presets have both bounds unset. *)
Theorem price_range_ordered cfg avg_rent :
  (0 <=? avg_rent)%float = true ->
  (0 <? target_roi cfg)%float = true ->
  (management_fee_rate (management cfg) <=? 1)%float = true ->
  (cash_purchase (investment cfg) = false ->
   (0 <=? down_payment_rate (investment cfg))%float = true) ->
  (forall cfg',
      calculate_price_range cfg avg_rent = (cfg', Returns tt) ->
      exists lo hi,
        cfg' = set_min_price lo (set_max_price hi cfg)
        /\ min_price cfg' = Some lo /\ max_price cfg' = Some hi
        /\ 0 <= lo <= hi)
  /\ (forall price,
        implied_max_price cfg avg_rent = Returns price ->
        is_finite price = true ->
        exists cfg', calculate_price_range cfg avg_rent = (cfg', Returns tt))
  /\ Forall (fun c => min_price c = None /\ max_price c = None)
       [SearchConfig_default; CASH_FLOW_CONFIG; SUBJECT_TO_CONFIG;
        SECTION_8_CONFIG].
Proof.
  intros Hrent Hroi Hfee Hdown. split; [| split].
  - intros cfg'. unfold calculate_price_range.
    destruct (implied_max_price cfg avg_rent) as [price | e] eqn:Hprice;
      [| discriminate].
    pose proof (implied_max_price_not_negative _ _ _ Hrent Hroi Hfee Hdown Hprice)
      as Hsign.
    destruct (int_of_float (price * 0.85)) as [hi | e] eqn:Hhi; [| discriminate].
    destruct (int_of_float (price * 0.4)) as [lo | e] eqn:Hlo; [| discriminate].
    intros [= <-]. exists lo, hi.
    split; [reflexivity | split; [reflexivity | split; [reflexivity |]]].
    exact (bounds_ordered price hi lo Hsign Hhi Hlo).
  - intros price Hprice Hfin. unfold calculate_price_range. rewrite Hprice.
    destruct (int_of_scaled_returns price 0.85 7656119366529843 (-53) Hfin
                eq_refl ltac:(lia) ltac:(lia)) as [hi ->].
    destruct (int_of_scaled_returns price 0.4 7205759403792794 (-54) Hfin
                eq_refl ltac:(lia) ltac:(lia)) as [lo ->].
    eauto.
  - repeat constructor.
Qed.

Lemma price_range_ordered_witness :
  calculate_price_range SearchConfig_default 1400
    = (set_min_price 30240 (set_max_price 64260 SearchConfig_default), Returns tt)
  /\ exists lo hi,
       set_min_price 30240 (set_max_price 64260 SearchConfig_default)
         = set_min_price lo (set_max_price hi SearchConfig_default)
       /\ min_price (set_min_price 30240 (set_max_price 64260 SearchConfig_default))
          = Some lo
       /\ max_price (set_min_price 30240 (set_max_price 64260 SearchConfig_default))
          = Some hi
       /\ 0 <= lo <= hi.
Proof.
  split; [reflexivity |].
  apply (proj1 (price_range_ordered SearchConfig_default 1400
                  eq_refl eq_refl eq_refl (fun _ => eq_refl))).
  reflexivity.
Defined.

End PriceBounds.

(** ** The price range against the algorithm of the specification *)

Section PriceRangeAlgorithm.

Implicit Types (cfg : SearchConfig) (avg_rent price : float).

(** Truncation toward zero and [floor] agree on a float whose sign bit
    is clear (and on NaN, where both raise). *)
Lemma int_of_float_floor (x : float) :
  not_negative (Prim2SF x) -> int_of_float x = PriceRangeCalculator.floor x.
Proof.
  unfold int_of_float, PriceRangeCalculator.floor, not_negative.
  destruct (Prim2SF x) as [s | s | | s m e]; try reflexivity.
  intros ->. reflexivity.
Qed.

(** C5, as the specification states it, fails: the code does not take
    the floor of section 4.2 but truncates toward zero.  With a custom
    management fee of 200 percent and a rent of 1.5 the implied maximum
    price is -90 and its 0.85 share is -76.5: the algorithm of the
    specification gives [max_price = -77], the code stores -76. *)
Lemma price_range_truncates_where_floor_is_specified :
  (0 <=? 1.5)%float = true
  /\ implied_max_price
       (with_management (custom_fee_management 200) SearchConfig_default) 1.5
     = Returns (-90)%float
  /\ PriceRangeCalculator.calculate_price_range
       (with_management (custom_fee_management 200) SearchConfig_default) 1.5
     = Returns (-36, -77)
  /\ (exists cfg',
        calculate_price_range
          (with_management (custom_fee_management 200) SearchConfig_default) 1.5
        = (cfg', Returns tt)
        /\ min_price cfg' = Some (-36) /\ max_price cfg' = Some (-76))
  /\ ~ (forall cfg avg_rent lo hi cfg',
          (0 <=? avg_rent)%float = true ->
          PriceRangeCalculator.calculate_price_range cfg avg_rent
            = Returns (lo, hi) ->
          calculate_price_range cfg avg_rent = (cfg', Returns tt) ->
          min_price cfg' = Some lo /\ max_price cfg' = Some hi).
Proof.
  split; [reflexivity | split; [reflexivity | split; [reflexivity | split]]].
  - eexists. split; [reflexivity | split; reflexivity].
  - intros Hall.
    destruct (Hall (with_management (custom_fee_management 200) SearchConfig_default)
                1.5%float (-36) (-77) _ eq_refl eq_refl eq_refl) as [_ Hhi].
    discriminate Hhi.
Qed.

(** C5 (amended): the two worked examples hold, and the code follows the
    algorithm of section 4.2 wherever the implied maximum price is not
    negative.  With a target ROI of 10.0, a management fee rate of 0.10
    and an average rent of 1400, a cash purchase gives an implied maximum
    price of 75600 and stores [max_price = 64260] and [min_price =
    30240]; a financed purchase with a down-payment rate of 0.20 gives
    378000 and stores 321300 and 151200.  For every configuration and
    rent whose implied maximum price has a clear sign bit, the algorithm
    of the specification returns a pair of bounds exactly when the code
    returns, and the code has then stored that pair. *)
Theorem price_range_worked_examples :
  (forall cfg,
      target_roi cfg = 10.0%float ->
      management_fee_rate (management cfg) = 0.10%float ->
      (cash_purchase (investment cfg) = true ->
       implied_max_price cfg 1400 = Returns 75600%float
       /\ exists cfg',
            calculate_price_range cfg 1400 = (cfg', Returns tt)
            /\ cfg' = set_min_price 30240 (set_max_price 64260 cfg)
            /\ min_price cfg' = Some 30240 /\ max_price cfg' = Some 64260)
      /\ (cash_purchase (investment cfg) = false ->
          down_payment_rate (investment cfg) = 0.20%float ->
          implied_max_price cfg 1400 = Returns 378000%float
          /\ exists cfg',
               calculate_price_range cfg 1400 = (cfg', Returns tt)
               /\ cfg' = set_min_price 151200 (set_max_price 321300 cfg)
               /\ min_price cfg' = Some 151200 /\ max_price cfg' = Some 321300))
  /\ (forall cfg avg_rent price lo hi,
        implied_max_price cfg avg_rent = Returns price ->
        not_negative (Prim2SF price) ->
        (PriceRangeCalculator.calculate_price_range cfg avg_rent = Returns (lo, hi)
         <-> exists cfg',
               calculate_price_range cfg avg_rent = (cfg', Returns tt)
               /\ min_price cfg' = Some lo /\ max_price cfg' = Some hi)).
Proof.
  split.
  - intros cfg Hroi Hfee. split.
    + intros Hcash.
      assert (Himplied : implied_max_price cfg 1400 = Returns 75600%float).
      { unfold implied_max_price. rewrite Hroi, Hfee, Hcash. reflexivity. }
      split; [exact Himplied |].
      exists (set_min_price 30240 (set_max_price 64260 cfg)).
      unfold calculate_price_range. rewrite Himplied.
      split; [reflexivity | split; [reflexivity | split; reflexivity]].
    + intros Hcash Hdown.
      assert (Himplied : implied_max_price cfg 1400 = Returns 378000%float).
      { unfold implied_max_price. rewrite Hroi, Hfee, Hcash, Hdown. reflexivity. }
      split; [exact Himplied |].
      exists (set_min_price 151200 (set_max_price 321300 cfg)).
      unfold calculate_price_range. rewrite Himplied.
      split; [reflexivity | split; [reflexivity | split; reflexivity]].
  - intros cfg avg_rent price lo hi Hprice Hsign.
    assert (Hspec : PriceRangeCalculator.calculate_price_range cfg avg_rent
              = (let! max_price := PriceRangeCalculator.floor (price * 0.85) in
                 let! min_price := PriceRangeCalculator.floor (price * 0.4) in
                 Returns (min_price, max_price))).
    { unfold PriceRangeCalculator.calculate_price_range.
      unfold implied_max_price, truediv in Hprice.
      destruct (float_is_zero (target_roi cfg / 100)); cbn [bind] in Hprice.
      - destruct (cash_purchase (investment cfg)); discriminate Hprice.
      - destruct (cash_purchase (investment cfg)).
        + injection Hprice as <-. reflexivity.
        + unfold truediv.
          destruct (float_is_zero (down_payment_rate (investment cfg)));
            [discriminate Hprice |].
          injection Hprice as <-. reflexivity. }
    assert (Hhi : int_of_float (price * 0.85)
                  = PriceRangeCalculator.floor (price * 0.85)).
    { apply int_of_float_floor. rewrite FloatAxioms.mul_spec.
      apply mul_not_negative; [exact Hsign |].
      apply literal_not_negative. exact I. }
    assert (Hlo : int_of_float (price * 0.4)
                  = PriceRangeCalculator.floor (price * 0.4)).
    { apply int_of_float_floor. rewrite FloatAxioms.mul_spec.
      apply mul_not_negative; [exact Hsign |].
      apply literal_not_negative. exact I. }
    rewrite Hspec. unfold calculate_price_range. rewrite Hprice, Hhi, Hlo.
    destruct (PriceRangeCalculator.floor (price * 0.85)) as [hi' | e];
      cbn [bind].
    + destruct (PriceRangeCalculator.floor (price * 0.4)) as [lo' | e];
        cbn [bind].
      * split.
        -- intros [= <- <-]. eexists. split; [reflexivity |].
           split; reflexivity.
        -- intros (cfg' & [= <-] & Hmin & Hmax).
           cbn in Hmin, Hmax. congruence.
      * split; [discriminate | intros (cfg' & [=] & _)].
    + split; [discriminate | intros (cfg' & [=] & _)].
Qed.

End PriceRangeAlgorithm.

Lemma price_range_worked_examples_witness :
  (implied_max_price SearchConfig_default 1400 = Returns 75600%float
   /\ exists cfg',
        calculate_price_range SearchConfig_default 1400 = (cfg', Returns tt)
        /\ cfg' = set_min_price 30240 (set_max_price 64260 SearchConfig_default)
        /\ min_price cfg' = Some 30240 /\ max_price cfg' = Some 64260)
  /\ (implied_max_price (with_investment financed SearchConfig_default) 1400
      = Returns 378000%float
      /\ exists cfg',
           calculate_price_range (with_investment financed SearchConfig_default) 1400
           = (cfg', Returns tt)
           /\ cfg' = set_min_price 151200
                       (set_max_price 321300
                          (with_investment financed SearchConfig_default))
           /\ min_price cfg' = Some 151200 /\ max_price cfg' = Some 321300)
  /\ PriceRangeCalculator.calculate_price_range SearchConfig_default 1400
     = Returns (30240, 64260).
Proof.
  split; [| split].
  - apply (proj1 (proj1 price_range_worked_examples SearchConfig_default
                    eq_refl eq_refl)).
    reflexivity.
  - apply (proj2 (proj1 price_range_worked_examples
                    (with_investment financed SearchConfig_default)
                    eq_refl eq_refl)); reflexivity.
  - apply (proj2 price_range_worked_examples SearchConfig_default 1400%float
             75600%float 30240 64260 eq_refl eq_refl).
    eexists. split; [reflexivity | split; reflexivity].
Defined.

(** ** Scoring: what the score depends on *)

Import Cases PyText.

Section ScoreFrame.

Implicit Types (d : gmap string value) (v : value).

(** X1: fields other than days-on-market never influence the analysis. *)
Theorem score_ignores_other_fields d k v :
  k <> "days_on_market" ->
  calculate_opportunity_score (<[k := v]> d) = calculate_opportunity_score d
  /\ calculate_opportunity_score (delete k d) = calculate_opportunity_score d.
Proof.
  intros Hk. split; apply score_reads_dom_only.
  - apply lookup_insert_ne. exact Hk.
  - apply lookup_delete_ne. exact Hk.
Qed.

(** X2: a longer time on the market never lowers the score.  Take two
    records whose days-on-market fields [int] converts, to [n1 <= n2],
    neither field being an integer of more than [max_str_digits] digits
    (which the notes could not quote): both calls return, and the score
    of the first is at most the score of the second. *)
Theorem score_monotone d1 d2 v1 v2 n1 n2 :
  d1 !! "days_on_market" = Some v1 -> int v1 = Returns n1 ->
  d2 !! "days_on_market" = Some v2 -> int v2 = Returns n2 ->
  (forall z, v1 = PyInt z -> Z.abs z < 10 ^ max_str_digits) ->
  (forall z, v2 = PyInt z -> Z.abs z < 10 ^ max_str_digits) ->
  n1 <= n2 ->
  exists s1 s2 text1 text2,
    str v1 = Returns text1 /\ str v2 = Returns text2
    /\ calculate_opportunity_score d1
      = Returns (analysis s1 RESEARCH_MORE ("DOM: " ++ text1 ++ " days"))
    /\ calculate_opportunity_score d2
      = Returns (analysis s2 RESEARCH_MORE ("DOM: " ++ text2 ++ " days"))
    /\ s1 <= s2.
Proof.
  intros Hd1 Hn1 Hd2 Hn2 Hsmall1 Hsmall2 Hle.
  destruct (str_cases v1) as [(text1 & Htext1 & _) | (z & -> & Hbig & _)];
    [| specialize (Hsmall1 z eq_refl); lia].
  destruct (str_cases v2) as [(text2 & Htext2 & _) | (z & -> & Hbig & _)];
    [| specialize (Hsmall2 z eq_refl); lia].
  destruct (score_present_text d1 v1 text1 Hd1 Htext1) as (s1 & Hrun1 & _ & Hs1).
  destruct (score_present_text d2 v2 text2 Hd2 Htext2) as (s2 & Hrun2 & _ & Hs2).
  rewrite Hn1 in Hs1. rewrite Hn2 in Hs2.
  exists s1, s2, text1, text2.
  split; [exact Htext1 | split; [exact Htext2 |]].
  split; [exact Hrun1 | split; [exact Hrun2 |]].
  subst s1 s2.
  destruct (Z.gtb_spec n1 120), (Z.gtb_spec n2 120),
    (Z.gtb_spec n1 90), (Z.gtb_spec n2 90),
    (Z.gtb_spec n1 60), (Z.gtb_spec n2 60); lia.
Qed.

End ScoreFrame.

Lemma score_ignores_other_fields_witness :
  "price" <> "days_on_market"
  /\ calculate_opportunity_score (<["price" := PyStr "$1"]> (short_listing (PyStr "150")))
     = calculate_opportunity_score (short_listing (PyStr "150")).
Proof.
  assert (Hk : "price" <> "days_on_market") by discriminate.
  split; [exact Hk |].
  exact (proj1 (score_ignores_other_fields (short_listing (PyStr "150")) "price"
                  (PyStr "$1") Hk)).
Defined.

Lemma score_monotone_witness :
  exists s1 s2 text1 text2,
    str (PyStr "95") = Returns text1 /\ str (PyInt 150) = Returns text2
    /\ calculate_opportunity_score (short_listing (PyStr "95"))
      = Returns (analysis s1 RESEARCH_MORE ("DOM: " ++ text1 ++ " days"))
    /\ calculate_opportunity_score (short_listing (PyInt 150))
      = Returns (analysis s2 RESEARCH_MORE ("DOM: " ++ text2 ++ " days"))
    /\ s1 <= s2.
Proof.
  apply (score_monotone (short_listing (PyStr "95")) (short_listing (PyInt 150))
           (PyStr "95") (PyInt 150) 95 150);
    [vm_compute; reflexivity | reflexivity | vm_compute; reflexivity
    | reflexivity | discriminate
    | intros z [= <-]; vm_compute; reflexivity | lia].
Defined.

(** ** Scoring: texts that [int()] rejects *)

Section Parsing.

Implicit Types (s : string) (c : ascii).

Lemma space_is_numeral c : is_space c = true -> numeral_char c = true.
Proof. intros H. unfold numeral_char. rewrite H. reflexivity. Qed.

Lemma underscore_is_numeral c : is_underscore c = true -> numeral_char c = true.
Proof. intros H. unfold numeral_char. rewrite H, orb_true_r. reflexivity. Qed.

Lemma digit_is_numeral c dv : digit_value c = Some dv -> numeral_char c = true.
Proof. intros H. unfold numeral_char. rewrite H, !orb_true_r. reflexivity. Qed.

Lemma all_chars_skip_spaces s :
  all_chars numeral_char (skip_spaces s) = true -> all_chars numeral_char s = true.
Proof.
  induction s as [| c s IH]; cbn [skip_spaces all_chars]; [reflexivity |].
  destruct (is_space c) eqn:Hsp.
  - intros H. rewrite (space_is_numeral c Hsp), (IH H). reflexivity.
  - intros H. exact H.
Qed.

Lemma all_chars_spaces s :
  skip_spaces s = EmptyString -> all_chars numeral_char s = true.
Proof.
  intros H. apply all_chars_skip_spaces. rewrite H. reflexivity.
Qed.

Lemma all_chars_scan_digits s : forall prev acc n rest,
  scan_digits prev acc s = Some (n, rest) ->
  all_chars numeral_char rest = true -> all_chars numeral_char s = true.
Proof.
  induction s as [| c s IH]; intros prev acc n rest;
    cbn [scan_digits all_chars].
  - destruct prev; [discriminate |]. intros [= <- <-]. reflexivity.
  - destruct (digit_value c) as [dv |] eqn:Hdv.
    + intros Hscan Hrest.
      rewrite (digit_is_numeral c dv Hdv), (IH _ _ _ _ Hscan Hrest). reflexivity.
    + destruct (is_underscore c) eqn:Hus.
      * destruct prev; [discriminate |]. intros Hscan Hrest.
        rewrite (underscore_is_numeral c Hus), (IH _ _ _ _ Hscan Hrest).
        reflexivity.
      * destruct prev; [discriminate |]. intros [= <- <-] Hrest. exact Hrest.
Qed.

(** A string that [int()] converts holds nothing but white space, signs,
    digits and underscores. *)
Lemma int_of_string_chars s z :
  int_of_string s = Some z -> all_chars numeral_char s = true.
Proof.
  unfold int_of_string. intros H. apply all_chars_skip_spaces.
  destruct (skip_spaces s) as [| c1 s1] eqn:Hs1; [discriminate |].
  assert (Hsign : forall (negative : bool) s2,
    match s2 with
    | String c _ =>
        match digit_value c with
        | Some _ =>
            match scan_digits false 0 s2 with
            | Some (n, rest) =>
                match skip_spaces rest with
                | EmptyString =>
                    if digit_count s2 <=? max_str_digits
                    then Some (if negative then - n else n)
                    else None
                | String _ _ => None
                end
            | None => None
            end
        | None => None
        end
    | EmptyString => None
    end = Some z -> all_chars numeral_char s2 = true).
  { intros negative s2 Hs2. destruct s2 as [| c s2']; [discriminate |].
    destruct (digit_value c); [| discriminate].
    destruct (scan_digits false 0 (String c s2')) as [[n rest] |] eqn:Hscan;
      [| discriminate].
    apply (all_chars_scan_digits _ _ _ _ _ Hscan).
    apply all_chars_spaces.
    destruct (skip_spaces rest); [reflexivity | discriminate]. }
  destruct (ascii_dec c1 "+") as [-> | Hplus];
    [| destruct (ascii_dec c1 "-") as [-> | Hminus]].
  - cbn in H |- *. exact (Hsign false s1 H).
  - cbn in H |- *. exact (Hsign true s1 H).
  - assert (Hnosign :
      match String c1 s1 with
      | String "+" r => (false, r)
      | String "-" r => (true, r)
      | _ => (false, String c1 s1)
      end = (false, String c1 s1)).
    { destruct c1 as [[] [] [] [] [] [] [] []]; try reflexivity; congruence. }
    rewrite Hnosign in H. exact (Hsign false (String c1 s1) H).
Qed.

End Parsing.

Section UnparsableText.

(** X3: a days-on-market text with any character other than digits,
    underscores, signs and white space (the comma of "1,234", say) is not
    a number for [int()]: the record gets the fallback score 10. *)
Theorem score_of_text_with_other_chars (d : gmap string value) (s : string) :
  d !! "days_on_market" = Some (PyStr s) ->
  all_chars numeral_char s = false ->
  calculate_opportunity_score d
    = Returns (analysis 10 RESEARCH_MORE ("DOM: " ++ s ++ " days")).
Proof.
  intros Hd Hchars.
  destruct (score_present_text d (PyStr s) s Hd eq_refl)
    as (score & Hrun & _ & Hscore).
  cbn [int] in Hscore.
  destruct (int_of_string s) as [z |] eqn:Hint.
  - apply int_of_string_chars in Hint. congruence.
  - subst score. exact Hrun.
Qed.

End UnparsableText.

Lemma score_of_text_with_other_chars_witness :
  calculate_opportunity_score (listing (PyStr "1,234"))
    = Returns (analysis 10 RESEARCH_MORE "DOM: 1,234 days").
Proof.
  apply (score_of_text_with_other_chars (listing (PyStr "1,234")) "1,234");
    vm_compute; reflexivity.
Defined.

(** ** Batch scoring: repeated and interrupted runs *)

Section BatchRuns.

Local Open Scope list_scope.

Implicit Types (d a : gmap string value) (h : gmap positive (gmap string value)).
Implicit Types (l : positive) (props : list positive).

(** The loop over a concatenation continues from where the loop over the
    first part stopped. *)
Lemma analyze_loop_app pre : forall rest acc h h1 out1,
  analyze_loop pre acc h = Some (h1, Returns out1) ->
  analyze_loop (pre ++ rest) acc h = analyze_loop rest out1 h1.
Proof.
  induction pre as [| p pre IH]; intros rest acc h h1 out1 Hrun; cbn in Hrun |- *.
  - injection Hrun as <- <-. reflexivity.
  - destruct (h !! p) as [d |]; [| discriminate Hrun].
    destruct (calculate_opportunity_score d) as [a | e]; [| discriminate Hrun].
    exact (IH _ _ _ _ _ Hrun).
Qed.

(** X4: running [analyze_deals] a second time changes nothing. *)
Theorem analyze_deals_idempotent h h1 props out :
  analyze_deals props h = Some (h1, Returns out) ->
  analyze_deals props h1 = Some (h1, Returns out).
Proof.
  unfold analyze_deals. intros Hrun.
  destruct (analyze_loop_returns _ _ _ _ _ Hrun) as (Hout & Hin & Hnotin).
  destruct (analyze_loop_total props [] h1) as [h2 Hrun2].
  { intros l Hl. destruct (Hin l Hl) as (d & a & _ & Ha & Hfin).
    exists (update d a), a. split; [exact Hfin | apply score_after_update, Ha]. }
  rewrite Hrun2, Hout. do 2 f_equal.
  destruct (analyze_loop_returns _ _ _ _ _ Hrun2) as (_ & Hin2 & Hnotin2).
  apply map_eq. intros l. destruct (decide (l ∈ props)) as [Hl | Hl].
  - destruct (Hin l Hl) as (d & a & _ & Ha & Hfin).
    destruct (Hin2 l Hl) as (d2 & a2 & Hd2 & Ha2 & Hfin2).
    rewrite Hfin in Hd2. injection Hd2 as <-.
    destruct (score_after_update d a Ha) as [Ha' Hidem].
    rewrite Ha' in Ha2. injection Ha2 as <-.
    rewrite Hfin2, Hidem, Hfin. reflexivity.
  - apply Hnotin2, Hl.
Qed.

(** X5: [analyze_deals] keeps what was scraped: the store holds the same
    records afterwards, every field other than the three analysis fields
    has its value unchanged, and in the analysed records the three
    analysis fields are present. *)
Theorem analyze_deals_keeps_fields h h1 props out :
  analyze_deals props h = Some (h1, Returns out) ->
  dom h1 = dom h
  /\ forall l d,
       h !! l = Some d ->
       exists d1,
         h1 !! l = Some d1
         /\ (forall k, k <> "opportunity_score" -> k <> "recommended_action" ->
                       k <> "analysis_notes" -> d1 !! k = d !! k)
         /\ (l ∈ props ->
             is_Some (d1 !! "opportunity_score")
             /\ d1 !! "recommended_action" = Some (PyStr RESEARCH_MORE)
             /\ is_Some (d1 !! "analysis_notes")).
Proof.
  unfold analyze_deals. intros Hrun.
  destruct (analyze_loop_returns _ _ _ _ _ Hrun) as (_ & Hin & Hnotin).
  assert (Hpoint : forall l d, h !! l = Some d ->
            exists d1, h1 !! l = Some d1
            /\ (forall k, k <> "opportunity_score" -> k <> "recommended_action" ->
                          k <> "analysis_notes" -> d1 !! k = d !! k)
            /\ (l ∈ props ->
                is_Some (d1 !! "opportunity_score")
                /\ d1 !! "recommended_action" = Some (PyStr RESEARCH_MORE)
                /\ is_Some (d1 !! "analysis_notes"))).
  { intros l d Hd. destruct (decide (l ∈ props)) as [Hl | Hl].
    - destruct (Hin l Hl) as (d0 & a & Hd0 & Ha & Hfin).
      rewrite Hd in Hd0. injection Hd0 as <-.
      exists (update d a). split; [exact Hfin |].
      destruct (score_returns d a Ha) as (v & text & score & _ & _ & -> & _).
      unfold update, analysis. split.
      + intros k H1 H2 H3. apply lookup_union_r.
        rewrite !lookup_insert_ne by congruence.
        apply lookup_singleton_ne. congruence.
      + intros _. repeat split.
        * eexists. apply lookup_union_Some_l. reflexivity.
        * apply lookup_union_Some_l. reflexivity.
        * eexists. apply lookup_union_Some_l. reflexivity.
    - exists d. rewrite (Hnotin l Hl). split; [exact Hd |].
      split; [reflexivity | contradiction]. }
  split; [| exact Hpoint].
  apply set_eq. intros l. rewrite !elem_of_dom. split.
  - intros [d1 Hd1]. destruct (decide (l ∈ props)) as [Hl | Hl].
    + destruct (Hin l Hl) as (d & a & Hd & _). eauto.
    + rewrite <- (Hnotin l Hl). eauto.
  - intros [d Hd]. destruct (Hpoint l d Hd) as (d1 & Hd1 & _). eauto.
Qed.

(** X6: when a record of the batch has no days-on-market field and the
    ones before it have the field, none of them with an integer of more
    than [max_str_digits] digits in it, [analyze_deals] raises
    [KeyError]; the records before it have been enriched by then, and
    every other record of the store is as it was. *)
Theorem analyze_deals_stops_at_missing_dom h pre l post d :
  (forall l', l' ∈ pre ->
     exists d' v,
       h !! l' = Some d' /\ d' !! "days_on_market" = Some v
       /\ forall z, v = PyInt z -> Z.abs z < 10 ^ max_str_digits) ->
  h !! l = Some d -> d !! "days_on_market" = None ->
  exists h1,
    analyze_deals (pre ++ l :: post) h = Some (h1, Raises KeyError)
    /\ (forall l' d', l' ∈ pre -> h !! l' = Some d' ->
          exists a, calculate_opportunity_score d' = Returns a
                    /\ h1 !! l' = Some (update d' a))
    /\ (forall l', l' ∉ pre -> h1 !! l' = h !! l').
Proof.
  intros Hpre Hl Hdom. unfold analyze_deals.
  destruct (analyze_loop_total pre [] h) as [h1 Hrun].
  { intros l' Hl'. destruct (Hpre l' Hl') as (d' & v & Hd' & Hv & Hsmall).
    destruct (str_cases v) as [(text & Htext & _) | (z & -> & Hbig & _)];
      [| specialize (Hsmall z eq_refl); lia].
    destruct (score_present_text d' v text Hv Htext) as (score & Hscore & _).
    eauto. }
  destruct (analyze_loop_returns _ _ _ _ _ Hrun) as (_ & Hin & Hnotin).
  assert (Hlpre : l ∉ pre).
  { intros Hin'. destruct (Hpre l Hin') as (d' & v & Hd' & Hv & _). congruence. }
  exists h1. split; [| split].
  - rewrite (analyze_loop_app pre (l :: post) [] h h1 _ Hrun). cbn.
    rewrite (Hnotin l Hlpre), Hl, (score_absent d Hdom). reflexivity.
  - intros l' d' Hl' Hd'. destruct (Hin l' Hl') as (d0 & a & Hd0 & Ha & Hfin).
    rewrite Hd' in Hd0. injection Hd0 as <-. eauto.
  - exact Hnotin.
Qed.

End BatchRuns.

Lemma analyze_deals_idempotent_witness :
  analyze_deals [1; 2]%positive short_store
    = Some (short_store_analyzed, Returns [1; 2]%positive)
  /\ analyze_deals [1; 2]%positive short_store_analyzed
     = Some (short_store_analyzed, Returns [1; 2]%positive).
Proof.
  assert (Hrun : analyze_deals [1; 2]%positive short_store
                 = Some (short_store_analyzed, Returns [1; 2]%positive))
    by (vm_compute; reflexivity).
  split; [exact Hrun | exact (analyze_deals_idempotent _ _ _ _ Hrun)].
Defined.

Lemma analyze_deals_keeps_fields_witness :
  analyze_deals [1; 2]%positive short_store
    = Some (short_store_analyzed, Returns [1; 2]%positive)
  /\ dom short_store_analyzed = dom short_store.
Proof.
  assert (Hrun : analyze_deals [1; 2]%positive short_store
                 = Some (short_store_analyzed, Returns [1; 2]%positive))
    by (vm_compute; reflexivity).
  split; [exact Hrun | exact (proj1 (analyze_deals_keeps_fields _ _ _ _ Hrun))].
Defined.

Lemma analyze_deals_stops_at_missing_dom_witness :
  analyze_deals [1; 2; 3]%positive broken_store
    = Some (broken_store_after, Raises KeyError).
Proof.
  destruct (analyze_deals_stops_at_missing_dom broken_store [1%positive]
              2%positive [3%positive] {[ "price" := PyStr "$95,000" ]})
    as (h1 & Hrun & _ & _).
  - intros l' Hl'. apply list_elem_of_singleton in Hl' as ->.
    exists (short_listing (PyStr "150")), (PyStr "150").
    split; [reflexivity | split; [reflexivity | discriminate]].
  - reflexivity.
  - reflexivity.
  - vm_compute. reflexivity.
Defined.

(** ** Configuration: repeated price ranges and the search radius *)

Section ConfigFacts.

Implicit Types (cfg : SearchConfig) (avg_rent : float).

(** The price does not read the two bounds. *)
Lemma implied_max_price_ignores_bounds cfg lo hi avg_rent :
  implied_max_price (set_min_price lo (set_max_price hi cfg)) avg_rent
  = implied_max_price cfg avg_rent.
Proof. reflexivity. Qed.

(** X7: a later call of [calculate_price_range] replaces both bounds:
    after a call that returned, a second call leaves the configuration
    that it would have left without the first. *)
Theorem calculate_price_range_last_wins cfg rent1 rent2 cfg1 cfg2 :
  calculate_price_range cfg rent1 = (cfg1, Returns tt) ->
  calculate_price_range cfg rent2 = (cfg2, Returns tt) ->
  calculate_price_range cfg1 rent2 = (cfg2, Returns tt).
Proof.
  unfold calculate_price_range. intros H1 H2.
  destruct (implied_max_price cfg rent1) as [p1 | e]; [| discriminate].
  destruct (int_of_float (p1 * 0.85)) as [hi1 | e]; [| discriminate].
  destruct (int_of_float (p1 * 0.4)) as [lo1 | e]; [| discriminate].
  injection H1 as <-. rewrite implied_max_price_ignores_bounds.
  destruct (implied_max_price cfg rent2) as [p2 | e]; [| discriminate].
  destruct (int_of_float (p2 * 0.85)) as [hi2 | e]; [| discriminate].
  destruct (int_of_float (p2 * 0.4)) as [lo2 | e]; [| discriminate].
  injection H2 as <-. reflexivity.
Qed.

(** X8: the search radius is the custom radius when that is set and not
    zero, and the default of the search kind otherwise; it is never
    zero. *)
Theorem search_radius_never_zero (l : LocationConfig) :
  search_radius l <> 0
  /\ (forall r, custom_radius l = Some r -> r <> 0 -> search_radius l = r)
  /\ (custom_radius l = None \/ custom_radius l = Some 0 ->
      search_radius l = if use_county l then 15 else 5).
Proof.
  unfold search_radius, truthy.
  destruct (custom_radius l) as [r |].
  - destruct (Z.eqb_spec r 0) as [-> | Hr].
    + split; [destruct (use_county l); discriminate |].
      split; [intros r [= <-] Hne; contradiction | reflexivity].
    + split; [exact Hr |].
      split; [intros r' [= <-] _; reflexivity |].
      intros [Hnone | [= Hzero]]; [discriminate | contradiction].
  - split; [destruct (use_county l); discriminate |].
    split; [discriminate | reflexivity].
Qed.

End ConfigFacts.

Lemma calculate_price_range_last_wins_witness :
  calculate_price_range SearchConfig_default 0
    = (set_min_price 0 (set_max_price 0 SearchConfig_default), Returns tt)
  /\ calculate_price_range SearchConfig_default 1400
     = (set_min_price 30240 (set_max_price 64260 SearchConfig_default), Returns tt)
  /\ calculate_price_range
       (set_min_price 0 (set_max_price 0 SearchConfig_default)) 1400
     = (set_min_price 30240 (set_max_price 64260 SearchConfig_default), Returns tt).
Proof.
  split; [reflexivity | split; [reflexivity |]].
  apply (calculate_price_range_last_wins SearchConfig_default 0 1400);
    reflexivity.
Defined.

(** ** The search URL *)

Import Listings Pages.

Section SearchURL.

Variable dict_repr : gmap string bool -> string.

Implicit Types (config : gmap string param) (cfg : SearchConfig).

(** The entries of [to_zillow_params] that the scraper reads. *)
Lemma to_zillow_params_entries cfg :
  to_zillow_params cfg !! "location_type"
    = Some (PStr (if use_county (location cfg) then "county" else "zip"))
  /\ to_zillow_params cfg !! "county" = Some (PStr (county (location cfg)))
  /\ to_zillow_params cfg !! "state" = Some (PStr (state (location cfg)))
  /\ to_zillow_params cfg !! "zip_code" = Some (PStr (zip_code (location cfg)))
  /\ to_zillow_params cfg !! "max_results" = Some (PInt (max_results cfg))
  /\ to_zillow_params cfg !! "property_types"
     = Some (PFlags {[ "single_family" := single_family (property cfg);
                       "multifamily" := small_multifamily (property cfg) ]}).
Proof.
  unfold to_zillow_params.
  destruct (truthy (min_price cfg)) as [lo |], (truthy (max_price cfg)) as [hi |];
    repeat split; reflexivity.
Qed.

Lemma price_range_keeps_location cfg avg_rent :
  location (fst (calculate_price_range cfg avg_rent)) = location cfg.
Proof.
  unfold calculate_price_range.
  destruct (implied_max_price cfg avg_rent) as [price | e]; [| reflexivity].
  destruct (int_of_float (price * 0.85)) as [hi | e]; [| reflexivity].
  destruct (int_of_float (price * 0.4)) as [lo | e]; reflexivity.
Qed.

(** X9: on the parameters that [to_zillow_params] produces,
    [build_search_url] never raises, and the URL names the county and
    state of a county search and the ZIP code otherwise.  Nothing else of the configuration
    reaches the URL: not the property types, not the minimum days on
    market, and not the price range that [calculate_price_range]
    resolves. *)
Theorem search_url_of_config cfg :
  build_search_url dict_repr (to_zillow_params cfg)
    = Returns ("https://www.zillow.com/homes/for_sale/"
               ++ (if use_county (location cfg)
                   then county (location cfg) ++ "-" ++ state (location cfg)
                   else zip_code (location cfg))
               ++ "/")
  /\ forall avg_rent,
       build_search_url dict_repr
         (to_zillow_params (fst (calculate_price_range cfg avg_rent)))
       = build_search_url dict_repr (to_zillow_params cfg).
Proof.
  assert (Hurl : forall c,
    build_search_url dict_repr (to_zillow_params c)
    = Returns ("https://www.zillow.com/homes/for_sale/"
               ++ (if use_county (location c)
                   then county (location c) ++ "-" ++ state (location c)
                   else zip_code (location c))
               ++ "/")).
  { intros c.
    destruct (to_zillow_params_entries c) as (Hlt & Hcounty & Hstate & Hzip & _ & Htypes).
    unfold build_search_url, config_item.
    rewrite Hlt, Htypes. cbn [bind].
    destruct (use_county (location c)); cbn [is_text String.eqb Ascii.eqb Bool.eqb];
      cbn [bind].
    - rewrite Hcounty, Hstate. reflexivity.
    - rewrite Hzip. reflexivity. }
  split; [apply Hurl |].
  intros avg_rent. rewrite !Hurl.
  rewrite price_range_keeps_location. reflexivity.
Qed.

(** An entry is formatted, or it is an integer with too many digits and
    formatting it raises [ValueError]. *)
Lemma format_cases (v : param) :
  (formattable v = true /\ exists text, format dict_repr v = Returns text)
  \/ (formattable v = false /\ format dict_repr v = Raises ValueError).
Proof.
  destruct v as [s | z | flags]; cbn [format formattable];
    try (left; split; [reflexivity | eexists; reflexivity]).
  unfold str_of_int. destruct (printable z).
  - left. split; [reflexivity | eexists; reflexivity].
  - right. split; reflexivity.
Qed.

(** Closes a case in which the call raises: no URL is returned, the
    conditions for one do not hold, and the exception is one of the
    three. *)
Ltac url_refuted :=
  split; [| intros ? [= <-]; auto];
  split; [intros [? ?]; discriminate |];
  intros (? & ? & ? & ? & ? & ?);
  repeat match goal with
    | H : Some _ = Some _ |- _ => injection H as ?; subst
    | H : None = Some _ |- _ => discriminate H
    | H : PStr _ = PFlags _ |- _ => discriminate H
    | H : PInt _ = PFlags _ |- _ => discriminate H
    | H : is_Some None |- _ => destruct H as [? ?]; discriminate
    | H : _ /\ _ |- _ => destruct H
    | H : exists _, _ |- _ => destruct H
    | H : is_text ?v "county" = _, H' : context [is_text ?v "county"] |- _ =>
        rewrite H in H'
    | H : ?m !! ?k = _, H' : context [?m !! ?k] |- _ => rewrite H in H'
    end;
  congruence.

(** X10: [build_search_url] returns exactly when the configuration has a
    location type, the county and the state of a county search or else
    the ZIP code, none of these an integer of more than
    [max_str_digits] digits, and a dict of property types with a
    [single_family] entry (which the URL does not use); otherwise it
    raises [KeyError], [TypeError] when [property_types] is not a dict,
    or [ValueError] when the location cannot be formatted. *)
Theorem build_search_url_returns_iff config :
  ((exists url, build_search_url dict_repr config = Returns url) <->
   exists location_type flags,
     config !! "location_type" = Some location_type
     /\ (if is_text location_type "county"
         then exists county state,
                config !! "county" = Some county
                /\ config !! "state" = Some state
                /\ formattable county = true /\ formattable state = true
         else exists zip_code,
                config !! "zip_code" = Some zip_code
                /\ formattable zip_code = true)
     /\ config !! "property_types" = Some (PFlags flags)
     /\ is_Some (flags !! "single_family"))
  /\ (forall e, build_search_url dict_repr config = Raises e ->
                e = KeyError \/ e = TypeError \/ e = ValueError).
Proof.
  unfold build_search_url, config_item, subscript.
  destruct (config !! "location_type") as [lt |] eqn:Hlt; cbn [bind];
    [| url_refuted].
  destruct (is_text lt "county") eqn:Hkind.
  - destruct (config !! "county") as [vc |] eqn:Hc; cbn [bind]; [| url_refuted].
    destruct (format_cases vc) as [[Hfc [tc ->]] | [Hfc ->]]; cbn [bind];
      [| url_refuted].
    destruct (config !! "state") as [vs |] eqn:Hs; cbn [bind]; [| url_refuted].
    destruct (format_cases vs) as [[Hfs [ts ->]] | [Hfs ->]]; cbn [bind];
      [| url_refuted].
    destruct (config !! "property_types") as [[? | ? | flags] |] eqn:Hp;
      cbn [bind]; [url_refuted | url_refuted | | url_refuted].
    destruct (flags !! "single_family") as [b |] eqn:Hsf; cbn [bind format];
      [| url_refuted].
    split; [| discriminate]. split; [| eauto].
    intros _. exists lt, flags. rewrite Hkind, Hsf. eauto 12.
  - destruct (config !! "zip_code") as [vz |] eqn:Hz; cbn [bind]; [| url_refuted].
    destruct (config !! "property_types") as [[? | ? | flags] |] eqn:Hp;
      cbn [bind]; [url_refuted | url_refuted | | url_refuted].
    destruct (flags !! "single_family") as [b |] eqn:Hsf; cbn [bind];
      [| url_refuted].
    destruct (format_cases vz) as [[Hfz [tz ->]] | [Hfz ->]]; cbn [bind];
      [| url_refuted].
    split; [| discriminate]. split; [| eauto].
    intros _. exists lt, flags. rewrite Hkind, Hsf. eauto 12.
Qed.

End SearchURL.

(** ** Extraction of a property card *)

Section Extraction.

Implicit Types (c : card) (d : gmap string value).

(** The record of a card that is not dropped. *)
Lemma extract_shape c d :
  extract_property_data c = Some d ->
  exists address price beds baths sqft days_on_market property_url,
    addr_text c = Some address /\ price_text c = Some price
    /\ link_href c = Some property_url
    /\ match dom_element c with
       | text :: _ => head (split text) = Some days_on_market
       | [] => days_on_market = "Unknown"
       end
    /\ ((length (details c) < 3)%nat ->
        beds = "N/A" /\ baths = "N/A" /\ sqft = "N/A")
    /\ d = {[ "address" := PyStr address;
              "price" := PyStr price;
              "bedrooms" := PyStr beds;
              "bathrooms" := PyStr baths;
              "square_feet" := PyStr sqft;
              "days_on_market" := PyStr days_on_market;
              "url" := from_option PyStr PyNone property_url;
              "scraped_date" := PyStr (now_isoformat c) ]}.
Proof.
  unfold extract_property_data. intros Hd.
  destruct (addr_text c) as [address |]; [| discriminate].
  destruct (price_text c) as [price |]; [| discriminate].
  cbn [mbind option_bind] in Hd.
  destruct (match details c with
            | d0 :: d1 :: d2 :: _ =>
                (replace " bd" "" d0, replace " ba" "" d1,
                 replace "," "" (replace " sqft" "" d2))
            | _ => ("N/A", "N/A", "N/A")
            end) as [[beds baths] sqft] eqn:Hdetails.
  destruct (match dom_element c with
            | text :: _ => head (split text)
            | [] => Some "Unknown"
            end) as [days_on_market |] eqn:Hdom; [| discriminate].
  cbn [mbind option_bind] in Hd.
  destruct (link_href c) as [property_url |]; [| discriminate].
  cbn [mbind option_bind] in Hd. injection Hd as <-.
  exists address, price, beds, baths, sqft, days_on_market, property_url.
  repeat (split; [reflexivity |]).
  split; [| split; [| reflexivity]].
  - destruct (dom_element c) as [| text rest]; [congruence | exact Hdom].
  - intros Hlen.
    destruct (details c) as [| d0 [| d1 [| d2 rest]]]; cbn in Hlen;
      try lia; injection Hdetails as <- <- <-; auto.
Qed.

(** X11: every record that [extract_property_data] returns has the eight
    scraped fields and nothing else, and [calculate_opportunity_score]
    returns on it; when the card shows no days-on-Zillow text the field is
    "Unknown" and the score is 10. *)
Theorem extracted_record_is_scored c d :
  extract_property_data c = Some d ->
  dom d = {[ "address"; "price"; "bedrooms"; "bathrooms"; "square_feet";
             "days_on_market"; "url"; "scraped_date" ]}
  /\ exists s score,
       d !! "days_on_market" = Some (PyStr s)
       /\ calculate_opportunity_score d
          = Returns (analysis score RESEARCH_MORE ("DOM: " ++ s ++ " days"))
       /\ (dom_element c = [] -> s = "Unknown" /\ score = 10).
Proof.
  intros Hd.
  destruct (extract_shape c d Hd)
    as (address & price & beds & baths & sqft & s & url & _ & _ & _ & Hdom & _ & ->).
  split.
  - rewrite !dom_insert_L, dom_singleton_L. set_solver.
  - assert (Hlook : ({[ "address" := PyStr address;
              "price" := PyStr price;
              "bedrooms" := PyStr beds;
              "bathrooms" := PyStr baths;
              "square_feet" := PyStr sqft;
              "days_on_market" := PyStr s;
              "url" := from_option PyStr PyNone url;
              "scraped_date" := PyStr (now_isoformat c) ]} : gmap string value)
              !! "days_on_market" = Some (PyStr s)) by reflexivity.
    destruct (score_present_text _ _ s Hlook eq_refl)
      as (score & Hrun & _ & Hscore).
    exists s, score. split; [exact Hlook | split; [exact Hrun |]].
    intros Hnone. rewrite Hnone in Hdom. subst s. split; [reflexivity |].
    exact Hscore.
Qed.

(** X12: a card is dropped exactly when it has no address element, no
    price element or no link, or when the first element that mentions
    days on Zillow has a text without a word. *)
Theorem extract_drops_card_iff c :
  extract_property_data c = None <->
  addr_text c = None \/ price_text c = None \/ link_href c = None
  \/ exists text rest, dom_element c = text :: rest /\ split text = [].
Proof.
  unfold extract_property_data.
  destruct (addr_text c) as [address |]; [| cbn; tauto].
  destruct (price_text c) as [price |]; [| cbn; tauto].
  cbn [mbind option_bind].
  destruct (match details c with
            | d0 :: d1 :: d2 :: _ =>
                (replace " bd" "" d0, replace " ba" "" d1,
                 replace "," "" (replace " sqft" "" d2))
            | _ => ("N/A", "N/A", "N/A")
            end) as [[beds baths] sqft].
  destruct (dom_element c) as [| text rest].
  - cbn [mbind option_bind].
    destruct (link_href c) as [url |]; cbn [mbind option_bind].
    + split; [discriminate |].
      intros [? | [? | [? | (? & ? & ? & _)]]]; discriminate.
    + tauto.
  - destruct (split text) as [| token tokens] eqn:Hsplit; cbn [head mbind option_bind].
    + split; [eauto 10 | reflexivity].
    + destruct (link_href c) as [url |]; cbn [mbind option_bind].
      * split; [discriminate |].
        intros [? | [? | [? | (? & ? & [= <- <-] & Hs)]]]; congruence.
      * tauto.
Qed.

(** X13: with fewer than three detail spans none of them is read: bedrooms,
    bathrooms and square feet are all "N/A". *)
Theorem few_details_give_placeholders c d :
  (length (details c) < 3)%nat ->
  extract_property_data c = Some d ->
  d !! "bedrooms" = Some (PyStr "N/A")
  /\ d !! "bathrooms" = Some (PyStr "N/A")
  /\ d !! "square_feet" = Some (PyStr "N/A").
Proof.
  intros Hlen Hd.
  destruct (extract_shape c d Hd)
    as (address & price & beds & baths & sqft & s & url & _ & _ & _ & _ & Hna & ->).
  destruct (Hna Hlen) as (-> & -> & ->). repeat split; reflexivity.
Qed.

End Extraction.

Lemma extracted_record_is_scored_witness :
  exists d, extract_property_data bare_card = Some d
            /\ calculate_opportunity_score d
               = Returns (analysis 10 RESEARCH_MORE "DOM: Unknown days").
Proof.
  eexists. split; [reflexivity |].
  destruct (extracted_record_is_scored bare_card _ eq_refl)
    as (_ & s & score & _ & Hrun & Hunknown).
  destruct (Hunknown eq_refl) as [-> ->]. exact Hrun.
Defined.

Lemma few_details_give_placeholders_witness :
  exists d, extract_property_data bare_card = Some d
            /\ d !! "bedrooms" = Some (PyStr "N/A").
Proof.
  eexists. split; [reflexivity |].
  exact (proj1 (few_details_give_placeholders bare_card _
                  ltac:(cbn; lia) eq_refl)).
Defined.

(** ** Extracted texts *)

Section CleanText.

Implicit Types (s : string) (c : card).

(** Replacing a one-character text by nothing removes the character. *)
Lemma replace_removes_char (a : ascii) s :
  all_chars (fun b => negb (Ascii.eqb b a)) (replace (String a "") "" s) = true.
Proof.
  unfold replace. induction s as [| b s IH]; [reflexivity |].
  cbn [replace_from String.prefix String.length Nat.sub].
  destruct (ascii_dec a b) as [<- | Hne].
  - destruct s; exact IH.
  - cbn [all_chars]. rewrite IH, andb_true_r.
    apply negb_true_iff, Ascii.eqb_neq. congruence.
Qed.

(** The words that [split] returns are not empty and hold no white
    space. *)
Lemma split_words s :
  Forall (fun w => w <> ""
                   /\ all_chars (fun b => negb (is_whitespace b)) w = true)
    (split s).
Proof.
  induction s as [| a s IH]; [constructor |].
  cbn [split]. destruct (is_whitespace a) eqn:Ha; [exact IH |].
  destruct s as [| b s'].
  - constructor; [| constructor]. split; [discriminate |].
    cbn [all_chars]. rewrite Ha. reflexivity.
  - destruct (is_whitespace b) eqn:Hb.
    + constructor; [| exact IH]. split; [discriminate |].
      cbn [all_chars]. rewrite Ha. reflexivity.
    + destruct (split (String b s')) as [| token tokens].
      * constructor; [| constructor]. split; [discriminate |].
        cbn [all_chars]. rewrite Ha. reflexivity.
      * apply Forall_cons in IH as [[_ Htoken] Htokens].
        constructor; [| exact Htokens]. split; [discriminate |].
        cbn [all_chars]. rewrite Ha, Htoken. reflexivity.
Qed.

(** X14: what extraction cleans: the square feet hold no comma, and the
    days-on-market field is never empty and never holds white space. *)
Theorem extracted_text_is_clean c d :
  extract_property_data c = Some d ->
  exists sqft days,
    d !! "square_feet" = Some (PyStr sqft)
    /\ d !! "days_on_market" = Some (PyStr days)
    /\ all_chars (fun b => negb (Ascii.eqb b ",")) sqft = true
    /\ days <> ""
    /\ all_chars (fun b => negb (is_whitespace b)) days = true.
Proof.
  unfold extract_property_data. intros Hd.
  destruct (addr_text c) as [address |]; [| discriminate Hd].
  destruct (price_text c) as [price |]; [| discriminate Hd].
  cbn [mbind option_bind] in Hd.
  assert (Hsqft : all_chars (fun b => negb (Ascii.eqb b ","))
            (match details c with
             | d0 :: d1 :: d2 :: _ =>
                 (replace " bd" "" d0, replace " ba" "" d1,
                  replace "," "" (replace " sqft" "" d2))
             | _ => ("N/A", "N/A", "N/A")
             end).2 = true).
  { destruct (details c) as [| d0 [| d1 [| d2 ?]]]; try reflexivity.
    apply replace_removes_char. }
  destruct (match details c with
            | d0 :: d1 :: d2 :: _ =>
                (replace " bd" "" d0, replace " ba" "" d1,
                 replace "," "" (replace " sqft" "" d2))
            | _ => ("N/A", "N/A", "N/A")
            end) as [[beds baths] sqft].
  cbn [snd] in Hsqft.
  assert (Hdays : forall days,
            match dom_element c with
            | text :: _ => head (split text)
            | [] => Some "Unknown"
            end = Some days ->
            days <> ""
            /\ all_chars (fun b => negb (is_whitespace b)) days = true).
  { intros days. destruct (dom_element c) as [| text rest].
    - intros [= <-]. split; [discriminate | reflexivity].
    - pose proof (split_words text) as Hwords.
      destruct (split text) as [| token tokens]; [discriminate |].
      intros [= <-]. apply Forall_cons in Hwords as [Htoken _]. exact Htoken. }
  destruct (match dom_element c with
            | text :: _ => head (split text)
            | [] => Some "Unknown"
            end) as [days |]; [| discriminate Hd].
  cbn [mbind option_bind] in Hd.
  destruct (link_href c) as [url |]; [| discriminate Hd].
  cbn [mbind option_bind] in Hd. injection Hd as <-.
  destruct (Hdays days eq_refl) as [Hne Hws].
  exists sqft, days.
  split; [reflexivity | split; [reflexivity |]].
  split; [exact Hsqft | split; [exact Hne | exact Hws]].
Qed.

End CleanText.

Lemma extracted_text_is_clean_witness :
  exists d sqft days,
    extract_property_data full_card = Some d
    /\ d !! "square_feet" = Some (PyStr sqft)
    /\ d !! "days_on_market" = Some (PyStr days)
    /\ all_chars (fun b => negb (Ascii.eqb b ",")) sqft = true.
Proof.
  destruct (extracted_text_is_clean full_card _ eq_refl)
    as (sqft & days & Hsqft & Hdays & Hclean & _).
  eexists _, sqft, days.
  split; [reflexivity | split; [exact Hsqft | split; [exact Hdays | exact Hclean]]].
Defined.

(** ** Searching, and analysing what was found *)

Section Collecting.

Local Open Scope list_scope.

Implicit Types (c : card) (cards : list card) (self : scraper).
Implicit Types (d : gmap string value) (l : positive).

(** An extracted record has fields, so it is true in Python's sense and
    the test [if property_data:] only filters out [None]. *)
Lemma extracted_not_empty c d :
  extract_property_data c = Some d -> d <> ∅.
Proof.
  unfold extract_property_data. intros Hd Hempty. subst d.
  destruct (addr_text c); [| discriminate Hd].
  destruct (price_text c); [| discriminate Hd].
  cbn [mbind option_bind] in Hd.
  destruct (match details c with
            | d0 :: d1 :: d2 :: _ =>
                (replace " bd" "" d0, replace " ba" "" d1,
                 replace "," "" (replace " sqft" "" d2))
            | _ => ("N/A", "N/A", "N/A")
            end) as [[beds baths] sqft].
  destruct (match dom_element c with
            | text :: _ => head (split text)
            | [] => Some "Unknown"
            end); [| discriminate Hd].
  cbn [mbind option_bind] in Hd.
  destruct (link_href c); [| discriminate Hd].
  cbn [mbind option_bind] in Hd.
  apply (f_equal (fun o : option (gmap string value) =>
                    m ← o; m !! "address")) in Hd.
  cbn [mbind option_bind] in Hd.
  rewrite lookup_insert_eq, lookup_empty in Hd. discriminate Hd.
Qed.

Lemma append_new_fresh d self :
  objects self !! fresh (dom (objects self)) = None.
Proof. apply not_elem_of_dom, is_fresh. Qed.

(** The loop over the cards: the references of the kept cards are added
    at the end of [properties], in the order of the cards; they are new
    and distinct, each holds the record extracted from its card, and the
    objects that were there keep their content. *)
Lemma collect_spec cards : forall self,
  exists news,
    properties (collect cards self) = properties self ++ news
    /\ Forall2 (fun l d => objects (collect cards self) !! l = Some d)
         news (omap extract_property_data cards)
    /\ NoDup news
    /\ (forall l, l ∈ news -> objects self !! l = None)
    /\ (forall l, is_Some (objects self !! l) ->
                  objects (collect cards self) !! l = objects self !! l).
Proof.
  induction cards as [| c rest IH]; intros self; cbn [collect omap list_omap].
  - exists []. rewrite app_nil_r.
    split; [reflexivity | split; [apply Forall2_nil_2 | split; [apply NoDup_nil_2 |]]].
    split; [| reflexivity].
    intros l Hl. inversion Hl.
  - destruct (extract_property_data c) as [d |] eqn:Hd; [| apply IH].
    rewrite bool_decide_eq_false_2 by exact (extracted_not_empty c d Hd).
    destruct (IH (append_new d self)) as (news & Hprops & Hobjs & Hnodup & Hnew & Hold).
    set (l0 := fresh (dom (objects self))) in *.
    assert (Hl0 : objects self !! l0 = None) by apply (append_new_fresh d).
    assert (Hl0' : objects (append_new d self) !! l0 = Some d)
      by apply lookup_insert_eq.
    exists (l0 :: news). split; [| split; [| split; [| split]]].
    + rewrite Hprops. cbn [append_new properties].
      rewrite <- app_assoc. reflexivity.
    + constructor; [| exact Hobjs].
      rewrite Hold by (rewrite Hl0'; eauto). exact Hl0'.
    + constructor; [| exact Hnodup].
      intros Hin. specialize (Hnew l0 Hin). congruence.
    + intros l Hl. apply elem_of_cons in Hl as [-> | Hl]; [exact Hl0 |].
      specialize (Hnew l Hl). cbn [append_new objects] in Hnew.
      apply lookup_insert_None in Hnew as [Hnew _]. exact Hnew.
    + intros l Hsome.
      assert (Hne : l0 <> l) by (intros <-; rewrite Hl0 in Hsome; destruct Hsome; discriminate).
      rewrite Hold.
      * cbn [append_new objects]. apply lookup_insert_ne. exact Hne.
      * cbn [append_new objects]. rewrite lookup_insert_ne by exact Hne. exact Hsome.
Qed.

(** [xs[:n]] is a prefix of [xs]; it has at most [n] elements when [n]
    is not negative, and leaves out the last [-n] elements (or
    everything) when [n] is negative. *)
Lemma slice_to_spec {A} (xs : list A) (n : Z) :
  slice_to xs n `prefix_of` xs
  /\ (0 <= n -> Z.of_nat (length (slice_to xs n)) = Z.min n (Z.of_nat (length xs)))
  /\ (n < 0 -> Z.of_nat (length (slice_to xs n)) = Z.max 0 (Z.of_nat (length xs) + n)).
Proof.
  unfold slice_to. destruct (Z.ltb_spec n 0) as [Hneg | Hpos].
  - split; [apply prefix_take | split; [lia |]].
    intros _. rewrite length_take. lia.
  - split; [apply prefix_take | split; [| lia]].
    intros _. rewrite length_take. lia.
Qed.

Lemma length_omap_le {A B} (f : A -> option B) (xs : list A) :
  (length (omap f xs) <= length xs)%nat.
Proof.
  induction xs as [| x xs IH]; cbn; [lia |].
  destruct (f x); cbn; lia.
Qed.

(** An extracted record has an address, and a text as its
    days-on-market field. *)
Lemma extracted_fields c d :
  extract_property_data c = Some d ->
  is_Some (d !! "address")
  /\ exists s, d !! "days_on_market" = Some (PyStr s).
Proof.
  intros Hd.
  destruct (extract_shape c d Hd)
    as (address & price & beds & baths & sqft & s & url & _ & _ & _ & _ & _ & ->).
  split; eexists; reflexivity.
Qed.

Variable dict_repr : gmap string bool -> string.

(** X15: a search that finds cards never clears what the scraper holds: it
    appends, in page order, one new record per card among the first
    [max_results] (10 when the configuration has none) whose extraction
    succeeds, returns the whole list, and leaves the records of earlier
    searches as they were.  A negative [max_results] does not mean "no
    limit": it leaves out that many cards from the end of the page. *)
Theorem search_properties_appends config cards self url n :
  build_search_url dict_repr config = Returns url ->
  default (PInt 10) (config !! "max_results") = PInt n ->
  exists self' news,
    search_properties dict_repr config (Some cards) self
      = (self', Returns (properties self ++ news))
    /\ properties self' = properties self ++ news
    /\ Forall2 (fun l d => objects self' !! l = Some d)
         news (omap extract_property_data (slice_to cards n))
    /\ NoDup news
    /\ (forall l, l ∈ news -> objects self !! l = None)
    /\ (forall l, is_Some (objects self !! l) ->
                  objects self' !! l = objects self !! l)
    /\ (0 <= n -> Z.of_nat (length news) <= n)
    /\ (n < 0 ->
        Z.of_nat (length news) <= Z.max 0 (Z.of_nat (length cards) + n)).
Proof.
  intros Hurl Hmax. unfold search_properties. rewrite Hurl, Hmax.
  destruct (collect_spec (slice_to cards n) self)
    as (news & Hprops & Hobjs & Hnodup & Hnew & Hold).
  exists (collect (slice_to cards n) self), news.
  rewrite Hprops.
  split; [reflexivity | split; [reflexivity |]].
  split; [exact Hobjs | split; [exact Hnodup | split; [exact Hnew |]]].
  split; [exact Hold |].
  assert (Hlen : (length news <= length (slice_to cards n))%nat).
  { rewrite (Forall2_length _ _ _ Hobjs). apply length_omap_le. }
  destruct (slice_to_spec cards n) as (_ & Hpos & Hneg).
  split; intros Hn; [specialize (Hpos Hn) | specialize (Hneg Hn)]; lia.
Qed.

(** X16: whatever the page holds, the records that a search leaves in
    [properties] can all be analysed: when the scraper's earlier records
    have an address and a days-on-market field that is not an integer of
    more than [max_str_digits] digits, and [search_properties] returns,
    [analyze_deals] returns the full list in order, and every record in
    it then has its address and the action "RESEARCH MORE - Gather
    intel". *)
Theorem search_then_analyze config page self self' out :
  (forall l, l ∈ properties self ->
     exists d v,
       objects self !! l = Some d
       /\ is_Some (d !! "address")
       /\ d !! "days_on_market" = Some v
       /\ forall z, v = PyInt z -> Z.abs z < 10 ^ max_str_digits) ->
  search_properties dict_repr config page self = (self', Returns out) ->
  exists h1,
    analyze_deals (properties self') (objects self')
      = Some (h1, Returns (properties self'))
    /\ forall l, l ∈ properties self' ->
         exists d1, h1 !! l = Some d1
                    /\ is_Some (d1 !! "address")
                    /\ d1 !! "recommended_action" = Some (PyStr RESEARCH_MORE).
Proof.
  intros Hself Hsearch.
  assert (Hself' : forall l, l ∈ properties self' ->
            exists d v,
              objects self' !! l = Some d
              /\ is_Some (d !! "address")
              /\ d !! "days_on_market" = Some v
              /\ forall z, v = PyInt z -> Z.abs z < 10 ^ max_str_digits).
  { unfold search_properties in Hsearch.
    destruct (build_search_url dict_repr config) as [url | e];
      [| discriminate Hsearch].
    destruct page as [cards |];
      [| injection Hsearch as <- _; exact Hself].
    destruct (default (PInt 10) (config !! "max_results")) as [| n |];
      [discriminate Hsearch | | discriminate Hsearch].
    injection Hsearch as <- _.
    destruct (collect_spec (slice_to cards n) self)
      as (news & Hprops & Hobjs & _ & _ & Hold).
    intros l Hl. rewrite Hprops in Hl. apply elem_of_app in Hl as [Hl | Hl].
    - destruct (Hself l Hl) as (d & v & Hd & Hfields).
      exists d, v. rewrite Hold by (rewrite Hd; eauto). eauto.
    - apply list_elem_of_lookup in Hl as [i Hi].
      destruct (Forall2_lookup_l _ _ _ _ _ Hobjs Hi) as (d & Hdi & Hd).
      apply list_elem_of_lookup_2, list_elem_of_omap in Hdi as (c & _ & Hc).
      destruct (extracted_fields c d Hc) as (Haddr & s & Hs).
      exists d, (PyStr s).
      split; [exact Hd | split; [exact Haddr | split; [exact Hs | discriminate]]]. }
  assert (Hscored : forall l, l ∈ properties self' ->
            exists d text score,
              objects self' !! l = Some d
              /\ is_Some (d !! "address")
              /\ calculate_opportunity_score d
                 = Returns (analysis score RESEARCH_MORE
                              ("DOM: " ++ text ++ " days"))).
  { intros l Hl. destruct (Hself' l Hl) as (d & v & Hd & Haddr & Hv & Hsmall).
    destruct (str_cases v) as [(text & Htext & _) | (z & -> & Hbig & _)];
      [| specialize (Hsmall z eq_refl); lia].
    destruct (score_present_text d v text Hv Htext) as (score & Hscore & _).
    exists d, text, score. auto. }
  destruct (analyze_loop_total (properties self') [] (objects self'))
    as [h1 Hrun].
  { intros l Hl. destruct (Hscored l Hl) as (d & text & score & Hd & _ & Hscore).
    eauto. }
  exists h1. split; [exact Hrun |].
  destruct (analyze_loop_returns _ _ _ _ _ Hrun) as (_ & Hin & _).
  intros l Hl. destruct (Hin l Hl) as (d & a & Hd & Ha & Hfin).
  destruct (Hscored l Hl) as (d' & text & score & Hd' & [addr Haddr] & Hscore).
  rewrite Hd in Hd'. injection Hd' as <-.
  rewrite Hscore in Ha. injection Ha as <-.
  exists (update d (analysis score RESEARCH_MORE ("DOM: " ++ text ++ " days"))).
  split; [exact Hfin | split].
  - exists addr. unfold update. rewrite lookup_union_r; [exact Haddr |].
    unfold analysis. rewrite !lookup_insert_ne by discriminate.
    apply lookup_singleton_ne. discriminate.
  - unfold update. apply lookup_union_Some_l. reflexivity.
Qed.

End Collecting.

Lemma search_properties_appends_witness :
  exists self' news,
    search_properties plain_repr main_config (Some page_of_three) earlier_scraper
      = (self', Returns ([1%positive] ++ news)%list)
    /\ (length news <= 3)%nat.
Proof.
  destruct (search_properties_appends plain_repr main_config page_of_three
              earlier_scraper
              "https://www.zillow.com/homes/for_sale/Wake-NC/" 10)
    as (self' & news & Hrun & _ & Hobjs & _).
  - vm_compute. reflexivity.
  - vm_compute. reflexivity.
  - exists self', news. split; [exact Hrun |].
    rewrite (Forall2_length _ _ _ Hobjs). apply length_omap_le.
Defined.

Lemma search_then_analyze_witness :
  exists h1,
    let self' := collect page_of_three earlier_scraper in
    analyze_deals (properties self') (objects self')
      = Some (h1, Returns (properties self')).
Proof.
  destruct (search_then_analyze plain_repr main_config (Some page_of_three)
              earlier_scraper (collect page_of_three earlier_scraper)
              (properties (collect page_of_three earlier_scraper)))
    as (h1 & Hrun & _).
  - intros l Hl. apply list_elem_of_singleton in Hl as ->.
    eexists _, (PyStr "95"). split; [reflexivity |].
    split; [eexists; reflexivity | split; [reflexivity | discriminate]].
  - unfold search_properties.
    replace (build_search_url plain_repr main_config)
      with (Returns (A := string) "https://www.zillow.com/homes/for_sale/Wake-NC/")
      by (vm_compute; reflexivity).
    replace (default (PInt 10) (main_config !! "max_results")) with (PInt 10)
      by (vm_compute; reflexivity).
    reflexivity.
  - exists h1. exact Hrun.
Defined.
